(** * Function-deployment lifecycle of agentcloud: a shallow embedding

    The development follows three source files:
    - the Google function provider ([GoogleFunctionProvider]): [deployFunction],
      [deleteFunction], [getFunctionState], [waitForFunctionToBeActive];
    - the tool controller: [addToolApi], [editToolApi], [deleteToolApi];
    - the asset collection: [updateAsset] and its siblings.

    Conventions.
    - A JavaScript promise is the value it settles to ([Promise]); an
      [async] method never throws at the call, it returns a promise.
    - The cloud backend, the clock and the id generators are oracles: every
      theorem quantifies over what they answer.  Calls to the backend may
      fail or never complete; the collections and the notification sink
      answer every call.
    - Collections are finite maps from [_id] to document.
    - Every effect is recorded in a trace, oldest first, so that the order
      of calls can be stated. *)

From Stdlib Require Import ZArith Lia Ascii String.
From stdpp Require Import base decidable option list strings gmap fin_maps.

Open Scope string_scope.
Open Scope Z_scope.

(** ** JavaScript values shared by the three files *)

Abbreviation ObjectId := string (only parsing).
Abbreviation FunctionId := string (only parsing).

(** A thrown value; [err_code] is [err.code] ([None]: no such property). *)
Record JsError := { err_code : option Z; err_message : string }.

#[global] Instance JsError_eq_dec : EqDecision JsError.
Proof. solve_decision. Defined.

(** What a promise settles to.  [Pending] is a promise that never settles. *)
Inductive Promise (A : Type) :=
| Fulfilled (a : A)
| Rejected (e : JsError)
| Pending.
Arguments Fulfilled {A} a.
Arguments Rejected {A} e.
Arguments Pending {A}.

(** What evaluating a call expression gives: a value or a synchronous throw. *)
Inductive Completion (A : Type) :=
| Normal (a : A)
| Throw (e : JsError).
Arguments Normal {A} a.
Arguments Throw {A} e.

(** The promise of [b] once [p] is fulfilled. *)
Definition andThen {A B} (p : Promise A) (b : B) : Promise B :=
  match p with
  | Fulfilled _ => Fulfilled b
  | Rejected e => Rejected e
  | Pending => Pending
  end.

(** An environment-variables object, [Record<string, string>]. *)
Abbreviation EnvVars := (gmap string string) (only parsing).

(** [`${x}`] for a value that may be absent; [absent] is how the missing
    value prints (null or undefined). *)
Definition template (absent : string) (x : option string) : string :=
  match x with Some s => s | None => absent end.

Definition newline : string := String "010"%char EmptyString.

(** ** The Google function provider *)
Module Provider.

(** Process configuration read by [init]. *)
Record Config := {
  projectId : string;   (* PROJECT_ID *)
  location : string;    (* GOOGLE_FUNCTION_LOCATION *)
  bucket : string       (* NEXT_PUBLIC_GCS_BUCKET_NAME *)
}.

Record DeployFunctionArgs := {
  id : FunctionId;
  code : option string;
  requirements : option string;
  runtime : option string;                  (* default 'python310' *)
  environmentVariables : option EnvVars     (* default {} *)
}.

(** The request object handed to [createFunction] / [updateFunction]. *)
Record DeployRequest := {
  r_name : string;
  r_runtime : string;
  r_entryPoint : string;
  r_bucket : string;
  r_object : string;
  r_buildEnvironmentVariables : option EnvVars;
  r_availableMemory : string;
  r_timeoutSeconds : Z;
  r_serviceEnvironmentVariables : option EnvVars;
  r_environment : string;
  r_parent : string;
  r_functionId : string;
  r_location : option string
}.

(** The two entries of the archive, in the order they are appended. *)
Definition Archive := list (string * string).

(** Calls that leave the provider, in the order they are issued. *)
Inductive Effect :=
| UploadBuffer (key : string) (zip : Archive) (contentType : string)
| GetFunction (name : string)
| UpdateFunction (request : DeployRequest)
| CreateFunction (request : DeployRequest)
| DeleteFunction (name : string)
| SetTimeout (ms : Z).

(** The backend as an oracle.  [be_getFunction name k] is the answer to the
    [k]-th [getFunction] request of a run ([response.state] when it
    succeeds) and [be_latency name k] the time that request takes. *)
Record Backend := {
  be_uploadBuffer : string -> Promise unit;
  be_getFunction : string -> nat -> Promise string;
  be_latency : string -> nat -> N;
  be_updateFunction : DeployRequest -> Promise unit;
  be_createFunction : DeployRequest -> Promise unit;
  be_deleteFunction : string -> Promise unit
}.

(** State threaded through one run of a provider method. *)
Record PState := {
  now : Z;                 (* what Date.now() reads *)
  gets : nat;              (* getFunction requests issued so far *)
  effects : list Effect    (* calls issued so far, oldest first *)
}.

Definition emit (e : Effect) (s : PState) : PState :=
  {| now := now s; gets := gets s; effects := effects s ++ [e] |}.

(** A state and error monad for the [async] methods: [await] of a rejected
    promise throws, a throw that is not caught rejects the method's own
    promise, a promise that never settles suspends the method for good. *)
Definition M (A : Type) : Type := PState -> Promise A * PState.

Definition ret {A} (a : A) : M A := fun s => (Fulfilled a, s).
Definition throw {A} (e : JsError) : M A := fun s => (Rejected e, s).
Definition bind {A B} (m : M A) (k : A -> M B) : M B :=
  fun s => match m s with
           | (Fulfilled a, s') => k a s'
           | (Rejected e, s') => (Rejected e, s')
           | (Pending, s') => (Pending, s')
           end.
Definition try_catch {A} (m : M A) (h : JsError -> M A) : M A :=
  fun s => match m s with
           | (Rejected e, s') => h e s'
           | r => r
           end.
(** [await] of a backend call: the call is issued, then its answer is met. *)
Definition await {A} (e : Effect) (p : Promise A) : M A :=
  fun s => (p, emit e s).

Declare Scope provider_scope.
Delimit Scope provider_scope with provider.
Notation "x <- m ;; k" := (bind m (fun x => k))
  (at level 100, m at next level, right associativity) : provider_scope.
Notation "m ;;; k" := (bind m (fun _ => k))
  (at level 100, right associativity) : provider_scope.

Section GoogleFunctionProvider.

Variable cfg : Config.
Variable backend : Backend.
(** [WrapToolCode] and [StandardRequirements] of function/base. *)
Variable WrapToolCode : option string -> string.
Variable StandardRequirements : list string.

Definition join (sep : string) (l : list string) : string :=
  match l with
  | [] => EmptyString
  | x :: r => fold_left (fun acc y => acc ++ sep ++ y) r x
  end.

Definition locationOf : string :=
  "projects/" ++ projectId cfg ++ "/locations/" ++ location cfg.

Definition functionNameOf (functionId : option FunctionId) : string :=
  locationOf ++ "/functions/function-" ++ template "null" functionId.

Definition nonEmptyEnv (env : EnvVars) : option EnvVars :=
  if decide (0 < size env)%nat then Some env else None.

Definition getFunction (name : string) : M string :=
  fun s =>
    (be_getFunction backend name (gets s),
     {| now := now s + Z.of_N (be_latency backend name (gets s));
        gets := S (gets s);
        effects := effects s ++ [GetFunction name] |}).

Definition functionPath (args : DeployFunctionArgs) : string :=
  "functions/" ++ id args.

(** The ZIP file: the wrapped code as main.py, then the requirements
    followed by the standard ones as requirements.txt. *)
Definition zipBuffer (args : DeployFunctionArgs) : Archive :=
  let codeBuffer := WrapToolCode (code args) in
  let requirementsBuffer :=
    template "undefined" (requirements args) ++ newline
    ++ join newline StandardRequirements in
  [("main.py", codeBuffer); ("requirements.txt", requirementsBuffer)].

(** The [request] object of [deployFunction], before the create branch adds
    its [location]. *)
Definition deployRequest (args : DeployFunctionArgs) : DeployRequest :=
  let runtime := default "python310" (runtime args) in
  let environmentVariables := default ∅ (environmentVariables args) in
  {| r_name := functionNameOf (Some (id args));
     r_runtime := runtime;
     r_entryPoint := "hello_http";
     r_bucket := bucket cfg;
     r_object := functionPath args ++ "/function.zip";
     r_buildEnvironmentVariables := nonEmptyEnv environmentVariables;
     r_availableMemory := "256M";
     r_timeoutSeconds := 60;
     r_serviceEnvironmentVariables := nonEmptyEnv environmentVariables;
     r_environment := "GEN_2";
     r_parent := locationOf;
     r_functionId := "function-" ++ id args;
     r_location := None |}.

(** [request.location = location] *)
Definition withLocation (request : DeployRequest) (location : string)
    : DeployRequest :=
  {| r_name := r_name request; r_runtime := r_runtime request;
     r_entryPoint := r_entryPoint request; r_bucket := r_bucket request;
     r_object := r_object request;
     r_buildEnvironmentVariables := r_buildEnvironmentVariables request;
     r_availableMemory := r_availableMemory request;
     r_timeoutSeconds := r_timeoutSeconds request;
     r_serviceEnvironmentVariables := r_serviceEnvironmentVariables request;
     r_environment := r_environment request; r_parent := r_parent request;
     r_functionId := r_functionId request;
     r_location := Some location |}.

Definition deployFunction (args : DeployFunctionArgs) : M string :=
  (let key := functionPath args ++ "/function.zip" in
   await (UploadBuffer key (zipBuffer args) "application/zip")
         (be_uploadBuffer backend key) ;;;
   let location := locationOf in
   let functionName := functionNameOf (Some (id args)) in
   functionExists <-
     try_catch (getFunction functionName ;;; ret true)
               (fun err => if decide (err_code err = Some 5) (* 5 means NOT_FOUND *)
                           then ret false
                           else throw err) ;;
   let request := deployRequest args in
   try_catch
     (if functionExists : bool
      then await (UpdateFunction request) (be_updateFunction backend request)
      else
        let request' := withLocation request location in
        await (CreateFunction request') (be_createFunction backend request'))
     (fun e => throw e) ;;;
   ret functionName)%provider.

Definition deleteFunction (functionId : option FunctionId) : M unit :=
  let functionName := functionNameOf functionId in
  try_catch
    (await (DeleteFunction functionName) (be_deleteFunction backend functionName))
    (fun err => throw err).

Definition getFunctionState (functionId : FunctionId) : M string :=
  let functionName := functionNameOf (Some functionId) in
  try_catch (getFunction functionName) (fun err => ret "ERROR").

(** [await new Promise(resolve => setTimeout(resolve, ms))] *)
Definition sleep (ms : Z) : M unit :=
  fun s => (Fulfilled tt,
            {| now := now s + ms; gets := gets s;
               effects := effects s ++ [SetTimeout ms] |}).

(** The [while] loop of [waitForFunctionToBeActive]; [fuel] bounds the
    number of times the loop condition is evaluated. *)
Fixpoint waitLoop (fuel : nat) (functionId : FunctionId)
    (startTime maxWaitTime waitTime : Z) (s : PState)
    : option (Promise bool * PState) :=
  match fuel with
  | O => None
  | S fuel' =>
      if now s - startTime <? maxWaitTime then
        match getFunctionState functionId s with
        | (Fulfilled functionState, s1) =>
            if String.eqb functionState "ACTIVE" then Some (Fulfilled true, s1)
            else if negb (String.eqb functionState "DEPLOYING")
                 then Some (Fulfilled false, s1)
                 else
                   match sleep waitTime s1 with
                   | (_, s2) =>
                       waitLoop fuel' functionId startTime maxWaitTime
                                (Z.min (waitTime * 2) 60000) s2
                   end
        | (Rejected e, s1) => Some (Rejected e, s1)
        | (Pending, s1) => Some (Pending, s1)
        end
      else Some (Fulfilled false, s)
  end.

Definition defaultMaxWaitTime : Z := 180000.

(** Every pass through the loop body that does not return sleeps at
    least 5000ms, so this many evaluations of the condition are enough. *)
Definition fuelFor (maxWaitTime : Z) : nat :=
  S (Z.to_nat (maxWaitTime / 5000 + 1)).

Definition waitForFunctionToBeActive (functionId : FunctionId)
    (maxWaitTime : Z) (s : PState) : option (Promise bool * PState) :=
  let startTime := now s in
  let waitTime := 5000 in
  waitLoop (fuelFor maxWaitTime) functionId startTime maxWaitTime waitTime s.

(** *** Vocabulary of the statements about the wait loop *)

(** The delays handed to [setTimeout], oldest first. *)
Fixpoint delaysOf (l : list Effect) : list Z :=
  match l with
  | [] => []
  | SetTimeout ms :: r => ms :: delaysOf r
  | _ :: r => delaysOf r
  end.

(** What the [k]-th status request of a run lets [getFunctionState]
    return ([None] when the request never completes). *)
Definition observed (functionId : FunctionId) (k : nat) : option string :=
  match be_getFunction backend (functionNameOf (Some functionId)) k with
  | Fulfilled st => Some st
  | Rejected _ => Some "ERROR"
  | Pending => None
  end.

(** The delay before poll number [S i]. *)
Definition backoff (i : nat) : Z := Z.min (5000 * 2 ^ Z.of_nat i) 60000.

(** The delay [i] iterations after a delay of [w]. *)
Fixpoint schedule (w : Z) (i : nat) : Z :=
  match i with
  | O => w
  | S i' => schedule (Z.min (w * 2) 60000) i'
  end.


End GoogleFunctionProvider.

(** The state a run starts in, before and after the existence probe. *)
Definition idle : PState := {| now := 0; gets := 0; effects := [] |}.
Definition probed : PState := {| now := 0; gets := 1; effects := [] |}.

(** *** A scripted backend for the examples *)

Definition exampleConfig : Config :=
  {| projectId := "agentcloud"; location := "us-central1"; bucket := "artifacts" |}.

(** A backend that accepts uploads, answers the existence probe and the
    deploy calls as told, and reports [states k] to the [k]-th status
    request. *)
Definition scripted (probe : Promise string) (deploy : Promise unit)
    (states : nat -> string) : Backend :=
  {| be_uploadBuffer := fun _ => Fulfilled tt;
     be_getFunction := fun _ k =>
       match k with O => probe | S k' => Fulfilled (states k') end;
     be_latency := fun _ _ => 0%N;
     be_updateFunction := fun _ => deploy;
     be_createFunction := fun _ => deploy;
     be_deleteFunction := fun _ => Fulfilled tt |}.

Definition notFound : JsError :=
  {| err_code := Some 5; err_message := "NOT_FOUND" |}.

Definition internalError : JsError :=
  {| err_code := Some 13; err_message := "INTERNAL" |}.

End Provider.

(** ** The MongoDB collection interface used by the db modules

    A collection is a finite map from [_id] to document.  Every filter in
    the sources names the [_id]; what else it requires is a predicate on the
    document.  [matchedCount] counts the documents the filter selected,
    [modifiedCount] those the update actually changed. *)
Module Mongo.

Record UpdateResult := { matchedCount : nat; modifiedCount : nat }.
Record DeleteResult := { deletedCount : nat }.

Section Collection.
Context {Doc : Type} `{EqDecision Doc}.

Definition findOne (_id : ObjectId) (filter : Doc -> bool)
    (c : gmap string Doc) : option Doc :=
  match c !! _id with
  | Some d => if filter d then Some d else None
  | None => None
  end.

Definition insertOne (_id : ObjectId) (d : Doc) (c : gmap string Doc)
    : gmap string Doc :=
  <[_id := d]> c.

Definition updateOne (_id : ObjectId) (filter : Doc -> bool)
    (set : Doc -> Doc) (c : gmap string Doc)
    : UpdateResult * gmap string Doc :=
  match findOne _id filter c with
  | Some d =>
      ({| matchedCount := 1;
          modifiedCount := if decide (set d = d) then 0 else 1 |},
       <[_id := set d]> c)
  | None => ({| matchedCount := 0; modifiedCount := 0 |}, c)
  end.

Definition deleteOne (_id : ObjectId) (filter : Doc -> bool)
    (c : gmap string Doc) : DeleteResult * gmap string Doc :=
  match findOne _id filter c with
  | Some _ => ({| deletedCount := 1 |}, delete _id c)
  | None => ({| deletedCount := 0 |}, c)
  end.

End Collection.
End Mongo.

(** Modelled from the spec: misc/toobjectid is not among the sources.  An
    ObjectId is represented by its hex string, on which the conversion is the
    identity. *)
Definition toObjectId (x : string) : ObjectId := x.

(** ** db/asset.ts

    The [Asset] struct is not among the sources: the collection is generic in
    it and in how [$set] applies a [Partial<Asset>]. *)
Module AssetDb.
Section Assets.
Context {Asset PartialAsset : Type} `{EqDecision Asset}.
Variable set_fields : PartialAsset -> Asset -> Asset.

Definition addAsset (insertedId : ObjectId) (asset : Asset)
    (c : gmap string Asset) : ObjectId * gmap string Asset :=
  (insertedId, Mongo.insertOne insertedId asset c).

Definition getAssetById (assetId : string) (c : gmap string Asset)
    : option Asset :=
  Mongo.findOne (toObjectId assetId) (fun _ => true) c.

Definition updateAsset (assetId : string) (updateData : PartialAsset)
    (c : gmap string Asset) : bool * gmap string Asset :=
  let '(result, c') :=
    Mongo.updateOne (toObjectId assetId) (fun _ => true)
                    (set_fields updateData) c in
  (Nat.ltb 0 (Mongo.matchedCount result), c').

Definition deleteAssetById (assetId : string) (c : gmap string Asset)
    : bool * gmap string Asset :=
  let '(result, c') :=
    Mongo.deleteOne (toObjectId assetId) (fun _ => true) c in
  (Nat.ltb 0 (Mongo.deletedCount result), c').

End Assets.
End AssetDb.

(** ** struct/tool and the tools collection *)
Module ToolDb.

Inductive ToolType := RAG_TOOL | FUNCTION_TOOL | API_TOOL.
Inductive ToolState := PENDING | READY | ERROR.

#[global] Instance ToolType_eq_dec : EqDecision ToolType.
Proof. solve_decision. Defined.
#[global] Instance ToolState_eq_dec : EqDecision ToolState.
Proof. solve_decision. Defined.

(** The [data] object of a tool; a property that is absent is [None]. *)
Record ToolData := {
  code : option string;
  requirements : option string;
  environmentVariables : option EnvVars;
  d_description : option string;
  parameters : option string;
  builtin : option bool;
  d_name : option string
}.

Record Icon := { icon_id : ObjectId; icon_filename : string }.

(** A tool document (its [_id] is its key in the collection). *)
Record Tool := {
  orgId : ObjectId;
  teamId : ObjectId;
  name : string;
  description : option string;
  type : ToolType;
  datasourceId : option ObjectId;
  retriever_type : option string;
  retriever_config : string;
  schema : option string;
  data : ToolData;
  icon : option Icon;
  state : ToolState;
  functionId : option FunctionId;
  functionLogs : option string;
  runtime : option string
}.

#[global] Instance ToolData_eq_dec : EqDecision ToolData.
Proof. solve_decision. Defined.
#[global] Instance Icon_eq_dec : EqDecision Icon.
Proof. solve_decision. Defined.
#[global] Instance Tool_eq_dec : EqDecision Tool.
Proof. solve_decision. Defined.

(** The argument of [$set]: the properties present in the update object. *)
Record ToolPatch := {
  p_name : option string;
  p_description : option (option string);
  p_type : option ToolType;
  p_datasourceId : option (option ObjectId);
  p_retriever_type : option (option string);
  p_retriever_config : option string;
  p_schema : option (option string);
  p_data : option ToolData;
  p_state : option ToolState;
  p_functionId : option FunctionId;
  p_functionLogs : option string
}.

Definition emptyPatch : ToolPatch :=
  {| p_name := None; p_description := None; p_type := None;
     p_datasourceId := None; p_retriever_type := None;
     p_retriever_config := None; p_schema := None; p_data := None;
     p_state := None; p_functionId := None; p_functionLogs := None |}.

Definition applyPatch (p : ToolPatch) (t : Tool) : Tool :=
  {| orgId := orgId t;
     teamId := teamId t;
     name := default (name t) (p_name p);
     description := default (description t) (p_description p);
     type := default (type t) (p_type p);
     datasourceId := default (datasourceId t) (p_datasourceId p);
     retriever_type := default (retriever_type t) (p_retriever_type p);
     retriever_config := default (retriever_config t) (p_retriever_config p);
     schema := default (schema t) (p_schema p);
     data := default (data t) (p_data p);
     icon := icon t;
     state := default (state t) (p_state p);
     functionId :=
       match p_functionId p with Some f => Some f | None => functionId t end;
     functionLogs :=
       match p_functionLogs p with Some l => Some l | None => functionLogs t end;
     runtime := runtime t |}.

(** The properties a filter may require besides [_id]. *)
Record ToolFilter := {
  f_teamId : option ObjectId;
  f_state : option ToolState;
  f_functionId : option FunctionId;
  f_type : option ToolType
}.

Definition requires {A} `{EqDecision A} (want : option A) (have : A) : bool :=
  match want with
  | Some x => bool_decide (x = have)
  | None => true
  end.

Definition matches (f : ToolFilter) (t : Tool) : bool :=
  requires (f_teamId f) (teamId t)
  && requires (f_state f) (state t)
  && match f_functionId f with
     | Some x => bool_decide (functionId t = Some x)
     | None => true
     end
  && requires (f_type f) (type t).

Definition byTeam (resourceSlug : string) : ToolFilter :=
  {| f_teamId := Some (toObjectId resourceSlug); f_state := None;
     f_functionId := None; f_type := None |}.

(** Modelled from the spec: db/tool is not among the sources.  The store is
    consumed through [findOne(filter)] and [updateOne(filter, patch)], whose
    effect relies on the filter matching; each function below is the one
    collection call its name and arguments stand for. *)
Definition getToolById (resourceSlug : string) (toolId : option string)
    (c : gmap string Tool) : option Tool :=
  match toolId with
  | Some i => Mongo.findOne (toObjectId i) (matches (byTeam resourceSlug)) c
  | None => None
  end.

(** Modelled from the spec: db/tool is not among the sources.
    [insertedId] is the id the driver reports, [None] when the insert was
    not acknowledged. *)
Definition addTool (insertedId : option ObjectId) (tool : Tool)
    (c : gmap string Tool) : option ObjectId * gmap string Tool :=
  match insertedId with
  | Some i => (Some i, Mongo.insertOne i tool c)
  | None => (None, c)
  end.

(** Modelled from the spec: db/tool is not among the sources.  An update
    of the tool with this id in this team. *)
Definition editTool (resourceSlug : string) (toolId : string)
    (update : ToolPatch) (c : gmap string Tool)
    : Mongo.UpdateResult * gmap string Tool :=
  Mongo.updateOne (toObjectId toolId) (matches (byTeam resourceSlug))
                  (applyPatch update) c.

(** Modelled from the spec: db/tool is not among the sources.  The
    conditional update: the caller's filter decides whether the patch is
    applied. *)
Definition editToolUnsafe (_id : ObjectId) (filter : ToolFilter)
    (update : ToolPatch) (c : gmap string Tool)
    : Mongo.UpdateResult * gmap string Tool :=
  Mongo.updateOne _id (matches filter) (applyPatch update) c.

(** Modelled from the spec: db/tool is not among the sources. *)
Definition deleteToolById (resourceSlug : string) (toolId : string)
    (c : gmap string Tool) : Mongo.DeleteResult * gmap string Tool :=
  Mongo.deleteOne (toObjectId toolId) (matches (byTeam resourceSlug)) c.

(** An agent document, as far as tools are concerned. *)
Record Agent := { agent_teamId : ObjectId; toolIds : list ObjectId }.

(** Modelled from the spec: db/agent is not among the sources.  Removes the
    tool's references from the agents of the team. *)
Definition removeAgentsTool (resourceSlug : string) (toolId : string)
    (c : gmap string Agent) : gmap string Agent :=
  (fun a =>
     if decide (agent_teamId a = toObjectId resourceSlug)
     then {| agent_teamId := agent_teamId a;
             toolIds := filter (fun i => i ≠ toObjectId toolId) (toolIds a) |}
     else a) <$> c.

End ToolDb.

(** ** The tool controller: [addToolApi], [editToolApi], [deleteToolApi] *)
Module ToolController.
Import ToolDb.

Record Body := {
  b_name : string;
  b_type : ToolType;
  b_data : ToolData;
  b_toolId : option string;
  b_schema : option string;
  b_datasourceId : option string;
  b_description : option string;
  b_iconId : option string;
  b_retriever : option string;
  b_retriever_config : option string;
  b_runtime : option string
}.

Record Request := {
  body : Body;
  resourceSlug : string;     (* req.params.resourceSlug *)
  matchingOrgId : string     (* res.locals.matchingOrg.id *)
}.

(** The object handed to [dynamicResponse]. *)
Inductive Payload :=
| PError (error : string)
| PAdded (_id : ObjectId) (redirect : string)
| PRedirect (redirect : string)
| PEmpty.

Record Response := { status : Z; payload : Payload }.

Record Notification := {
  n_orgId : ObjectId;
  n_teamId : ObjectId;
  n_target : string;
  n_title : string;
  n_description : string
}.

(** What the controller asks of its collaborators, in the order asked. *)
Inductive Event :=
| EvDeployFunction (args : Provider.DeployFunctionArgs)
| EvWaitForFunctionToBeActive (functionId : FunctionId)
| EvGetFunctionLogs (functionId : FunctionId)
| EvDeleteFunction (functionId : option FunctionId)
| EvAddTool (tool : Tool)
| EvEditTool (toolId : string) (update : ToolPatch)
| EvEditToolUnsafe (_id : ObjectId) (filter : ToolFilter) (update : ToolPatch)
| EvDeleteToolById (toolId : string)
| EvRemoveAgentsTool (toolId : string)
| EvAddNotification (n : Notification)
| EvEmit (room : string) (n : Notification)
| EvLogged (e : JsError)
| EvUnhandledRejection (e : JsError).

(** The function ids [deleteFunction] was called with, oldest first. *)
Fixpoint deletions (l : list Event) : list (option FunctionId) :=
  match l with
  | [] => []
  | EvDeleteFunction f :: r => f :: deletions r
  | _ :: r => deletions r
  end.

(** The function ids [deployFunction] was called with, oldest first. *)
Fixpoint deployments (l : list Event) : list FunctionId :=
  match l with
  | [] => []
  | EvDeployFunction args :: r => Provider.id args :: deployments r
  | _ :: r => deployments r
  end.

(** The provider interface the controller programs against.  Calling
    [deployFunction] is the one provider call the controller wraps in
    [try]/[catch], so its completion is kept apart from its promise. *)
Record FunctionProvider := {
  fp_deployFunction : Provider.DeployFunctionArgs -> Completion (Promise string);
  fp_deleteFunction : option FunctionId -> Promise unit;
  fp_waitForFunctionToBeActive : FunctionId -> Promise bool;
  fp_getFunctionLogs : FunctionId -> Promise string
}.

(** What one request draws from outside: the id [uuidv4()] returns, the
    id the driver gives an inserted tool, the datasource lookup. *)
Record Nondet := {
  uuidv4 : FunctionId;
  insertedId : option ObjectId;
  foundDatasource : bool
}.

(** Which request started an attempt; the edit flow's callbacks close over
    the tool as it was read at the start of the request. *)
Inductive Flow := AddFlow | EditFlow (existingTool : Tool).

(** A deployment attempt in flight: the promise [deployFunction] returned
    and what its [then] callbacks close over. *)
Record Attempt := {
  a_flow : Flow;
  a_functionId : FunctionId;
  a_toolId : string;
  a_request : Request;
  a_deployed : Promise string
}.

Definition truthy (x : option string) : bool :=
  match x with
  | Some s => negb (bool_decide (s = EmptyString))
  | None => false
  end.

(** The value of [await p.catch(e => { log(e); })] for a settled [p]:
    nothing when [p] was rejected. *)
Definition caught (p : Promise string) : option string :=
  match p with
  | Fulfilled l => Some l
  | _ => None
  end.

Definition dquote : string := String "034"%char EmptyString.

(** [!==] on two values that are strings or absent. *)
Definition strictNeq (a b : option string) : bool :=
  negb (bool_decide (a = b)).

(** [!==] on two values that are objects or absent.  The operands of the
    comparison in [editToolApi] come from the request body and from the
    database: two objects are never the same object. *)
Definition strictNeqObject {A} (a b : option A) : bool :=
  match a, b with
  | None, None => false
  | _, _ => true
  end.

Section Controller.
Context {Asset : Type}.
Variable assetFilename : Asset -> string.
(** utils/validationUtils, misc/tosnakecase and struct/function are not
    among the sources. *)
Variable validateTool : Body -> option string.
Variable toSnakeCase : string -> string.
Variable runtimeValues : list string.
Variable functionProvider : FunctionProvider.

Record World := {
  tools : gmap string Tool;
  agents : gmap string Agent;
  assets : gmap string Asset;
  trace : list Event
}.

Definition record (e : Event) (w : World) : World :=
  {| tools := tools w; agents := agents w; assets := assets w;
     trace := trace w ++ [e] |}.

Definition withTools (c : gmap string Tool) (w : World) : World :=
  {| tools := c; agents := agents w; assets := assets w; trace := trace w |}.

Definition withAgents (c : gmap string Agent) (w : World) : World :=
  {| tools := tools w; agents := c; assets := assets w; trace := trace w |}.

Definition respond (status : Z) (p : Payload) : Promise Response :=
  Fulfilled {| status := status; payload := p |}.

Definition toolDataOf (b : Body) : ToolData :=
  {| code := code (b_data b);
     requirements := requirements (b_data b);
     environmentVariables := environmentVariables (b_data b);
     d_description := d_description (b_data b);
     parameters := parameters (b_data b);
     builtin := Some false;
     d_name := Some (match b_type b with
                     | API_TOOL => "openapi_request"
                     | FUNCTION_TOOL => toSnakeCase (b_name b)
                     | RAG_TOOL => b_name b
                     end) |}.

Definition deployArgs (toolData : ToolData) (functionId : FunctionId)
    (runtime : option string) : Provider.DeployFunctionArgs :=
  {| Provider.code := code toolData;
     Provider.requirements := requirements toolData;
     Provider.environmentVariables := environmentVariables toolData;
     Provider.id := functionId;
     Provider.runtime := runtime |}.

Definition invalidDatasource (b : Body) (nd : Nondet) : bool :=
  truthy (b_datasourceId b)
  && negb (bool_decide (String.length (default EmptyString (b_datasourceId b)) = 24%nat))
  && negb (foundDatasource nd).

Definition invalidRuntime (b : Body) : bool :=
  truthy (b_runtime b)
  && negb (bool_decide (default EmptyString (b_runtime b) ∈ runtimeValues)).

Definition deploymentNotification (orgId teamId target name : string)
    (isActive : bool) : Notification :=
  {| n_orgId := orgId; n_teamId := teamId; n_target := target;
     n_title := "Tool Deployment";
     n_description :=
       "Custom code tool " ++ dquote ++ name ++ dquote ++ " "
       ++ (if isActive then "deployed successfully" else "failed to deploy")
       ++ "." |}.

(** An update object with [state] and, when given, [functionId] and
    [functionLogs]. *)
Definition statePatch (st : ToolState) (newFunctionId : option FunctionId)
    (logs : option string) : ToolPatch :=
  {| p_name := None; p_description := None; p_type := None;
     p_datasourceId := None; p_retriever_type := None;
     p_retriever_config := None; p_schema := None; p_data := None;
     p_state := Some st; p_functionId := newFunctionId;
     p_functionLogs := logs |}.

Definition addToolApi (req : Request) (nd : Nondet) (w : World)
    : Promise Response * World * option Attempt :=
  let b := body req in
  match validateTool b with
  | Some validationError => (respond 400 (PError validationError), w, None)
  | None =>
    if invalidDatasource b nd
    then (respond 400 (PError "Invalid datasource IDs"), w, None)
    else if invalidRuntime b
    then (respond 400 (PError "Invalid runtime"), w, None)
    else
      let isFunctionTool := bool_decide (b_type b = FUNCTION_TOOL) in
      let foundIcon :=
        match b_iconId b with
        | Some i => (fun a => {| icon_id := toObjectId i;
                                 icon_filename := assetFilename a |})
                    <$> AssetDb.getAssetById i (assets w)
        | None => None
        end in
      let toolData := toolDataOf b in
      let functionId := if isFunctionTool then Some (uuidv4 nd) else None in
      let tool :=
        {| orgId := toObjectId (matchingOrgId req);
           teamId := toObjectId (resourceSlug req);
           name := b_name b;
           description := b_description b;
           type := b_type b;
           datasourceId := toObjectId <$> b_datasourceId b;
           retriever_type := if truthy (b_retriever b) then b_retriever b else None;
           retriever_config :=
             if truthy (b_retriever_config b)
             then default EmptyString (b_retriever_config b) else "{}";
           schema := b_schema b;
           data := toolData;
           icon := foundIcon;
           state := if isFunctionTool then PENDING else READY;
           functionId := functionId;
           functionLogs := None;
           runtime := None |} in
      let '(addedTool, c1) := addTool (insertedId nd) tool (tools w) in
      let w1 := withTools c1 (record (EvAddTool tool) w) in
      match addedTool with
      | None =>
          (respond 400 (PError "Error inserting tool into database"), w1, None)
      | Some added =>
          let accepted :=
            respond 302 (PAdded added ("/" ++ resourceSlug req ++ "/tools")) in
          if isFunctionTool then
            let args := deployArgs toolData (uuidv4 nd) (b_runtime b) in
            let w2 := record (EvDeployFunction args) w1 in
            match fp_deployFunction functionProvider args with
            | Normal deployed =>
                (accepted, w2,
                 Some {| a_flow := AddFlow; a_functionId := uuidv4 nd;
                         a_toolId := added; a_request := req;
                         a_deployed := deployed |})
            | Throw e =>
                let w3 := record (EvDeleteFunction functionId) w2 in
                let update := statePatch ERROR None None in
                let '(_, c4) := editTool (resourceSlug req) added update (tools w3) in
                let w4 := withTools c4 (record (EvEditTool added update) w3) in
                (respond 400 (PError "Error deploying or testing function"), w4, None)
            end
          else (accepted, w1, None)
      end
  end.

(** The filter and the update object of the conditional update in
    [addToolApi]. *)
Definition addFilter (a : Attempt) : ToolFilter :=
  {| f_teamId := Some (toObjectId (resourceSlug (a_request a)));
     f_state := None;
     f_functionId := Some (a_functionId a);
     f_type := Some FUNCTION_TOOL |}.

Definition addUpdate (isActive : bool) (logs : option string) : ToolPatch :=
  statePatch (if isActive then READY else ERROR) None
             (if negb isActive && truthy logs then logs else None).

(** The filter and the update object of the conditional update in
    [editToolApi]. *)
Definition editFilter (a : Attempt) : ToolFilter :=
  {| f_teamId := Some (toObjectId (resourceSlug (a_request a)));
     f_state := Some PENDING;
     f_functionId := None;   (* //functionId: ... *)
     f_type := Some FUNCTION_TOOL |}.

Definition editUpdate (a : Attempt) (isActive : bool) (logs : option string)
    : ToolPatch :=
  statePatch (if isActive then READY else ERROR)
             (if isActive then Some (a_functionId a) else None)
             (if negb isActive && truthy logs then logs else None).

(** The callback of [waitForFunctionToBeActive(...).then] in
    [addToolApi], from the log fetch on. *)
Definition reconcileAdd (a : Attempt) (isActive : bool)
    (logs : option string) (w : World) : World :=
  let functionId := a_functionId a in
  let req := a_request a in
  let filter := addFilter a in
  let update := addUpdate isActive logs in
  let '(editedRes, c1) :=
    editToolUnsafe (toObjectId (a_toolId a)) filter update (tools w) in
  let w1 :=
    withTools c1 (record (EvEditToolUnsafe (toObjectId (a_toolId a)) filter update) w) in
  if Nat.eqb (Mongo.modifiedCount editedRes) 0 then
    record (EvDeleteFunction (Some functionId)) w1
  else
    let w2 := if negb isActive
              then record (EvDeleteFunction (Some functionId)) w1 else w1 in
    let notification :=
      deploymentNotification (toObjectId (matchingOrgId req))
        (toObjectId (resourceSlug req)) (a_toolId a) (b_name (body req))
        isActive in
    record (EvEmit (resourceSlug req) notification)
           (record (EvAddNotification notification) w2).

(** The callback of [waitForFunctionToBeActive(...).then] in
    [editToolApi], from the log fetch on. *)
Definition reconcileEdit (a : Attempt) (existingTool : Tool)
    (isActive : bool) (logs : option string) (w : World) : World :=
  let functionId := a_functionId a in
  let req := a_request a in
  let filter := editFilter a in
  let update := editUpdate a isActive logs in
  let '(editedRes, c1) :=
    editToolUnsafe (toObjectId (a_toolId a)) filter update (tools w) in
  let w1 :=
    withTools c1 (record (EvEditToolUnsafe (toObjectId (a_toolId a)) filter update) w) in
  if Nat.eqb (Mongo.modifiedCount editedRes) 0 then
    record (EvDeleteFunction (Some functionId)) w1
  else
    let notification :=
      deploymentNotification (toObjectId (orgId existingTool))
        (toObjectId (teamId existingTool)) (a_toolId a)
        (b_name (body req)) isActive in
    let w2 :=
      record (EvEmit (resourceSlug req) notification)
             (record (EvAddNotification notification) w1) in
    let w3 := if negb isActive
              then record (EvDeleteFunction (Some functionId)) w2 else w2 in
    if isActive && truthy (ToolDb.functionId existingTool)
    then record (EvDeleteFunction (ToolDb.functionId existingTool)) w3
    else w3.

(** What becomes of an attempt once its promises settle: the chain
    [deployFunction(...).then(() => waitForFunctionToBeActive(...)
    .then(...).catch(...))].  The outer [then] has no rejection
    handler.  The chain touches the collections in its conditional update
    only, so it is run in one step, at the moment that update commits. *)
Definition settle (a : Attempt) (w : World) : World :=
  match a_deployed a with
  | Rejected e => record (EvUnhandledRejection e) w
  | Pending => w
  | Fulfilled _ =>
      let functionId := a_functionId a in
      let w1 := record (EvWaitForFunctionToBeActive functionId) w in
      match fp_waitForFunctionToBeActive functionProvider functionId with
      | Rejected e => record (EvLogged e) w1
      | Pending => w1
      | Fulfilled isActive =>
          let w2 := record (EvGetFunctionLogs functionId) w1 in
          match fp_getFunctionLogs functionProvider functionId with
          | Pending => w2
          | settled =>
              let logs := caught settled in
              match a_flow a with
              | AddFlow => reconcileAdd a isActive logs w2
              | EditFlow existingTool =>
                  reconcileEdit a existingTool isActive logs w2
              end
          end
      end
  end.

(** The conditional update an attempt issues when it resolves. *)
Definition conditionalUpdate (a : Attempt) (isActive : bool)
    (logs : option string) : Event :=
  match a_flow a with
  | AddFlow =>
      EvEditToolUnsafe (toObjectId (a_toolId a)) (addFilter a)
                       (addUpdate isActive logs)
  | EditFlow _ =>
      EvEditToolUnsafe (toObjectId (a_toolId a)) (editFilter a)
                       (editUpdate a isActive logs)
  end.

(** Modelled from the spec: lib/misc/getdotprop is not among the sources;
    [getDotProp(o, k)] reads the field of [o] at the dotted path [k].  The
    four paths are compared in the order of the array, [some] stopping at
    the first difference. *)
Definition functionNeedsUpdate (b : Body) (existingTool : Tool) : bool :=
  strictNeqObject (environmentVariables (b_data b))
                  (environmentVariables (data existingTool))
  || strictNeq (code (b_data b)) (code (data existingTool))
  || strictNeq (requirements (b_data b)) (requirements (data existingTool))
  || strictNeq (b_runtime b) (runtime existingTool).

Definition editToolApi (req : Request) (nd : Nondet) (w : World)
    : Promise Response * World * option Attempt :=
  let b := body req in
  match validateTool b with
  | Some validationError => (respond 400 (PError validationError), w, None)
  | None =>
    if invalidDatasource b nd
    then (respond 400 (PError "Invalid datasource IDs"), w, None)
    else
      match getToolById (resourceSlug req) (b_toolId b) (tools w) with
      | None => (respond 400 (PError "Invalid toolId"), w, None)
      | Some existingTool =>
        let toolId := default EmptyString (b_toolId b) in
        let isFunctionTool := bool_decide (b_type b = FUNCTION_TOOL) in
        let needsUpdate := functionNeedsUpdate b existingTool in
        let toolData := toolDataOf b in
        let update :=
          {| p_name := Some (b_name b);
             p_type := Some (b_type b);
             p_description := Some (b_description b);
             p_schema := Some (b_schema b);
             p_datasourceId := Some (toObjectId <$> b_datasourceId b);
             p_retriever_type :=
               Some (if truthy (b_retriever b) then b_retriever b else None);
             p_retriever_config :=
               Some (if truthy (b_retriever_config b)
                     then default EmptyString (b_retriever_config b) else "{}");
             p_data := Some toolData;
             p_state := Some (if isFunctionTool then PENDING else READY);
             p_functionId := None;
             p_functionLogs := None |} in
        let '(_, c1) := editTool (resourceSlug req) toolId update (tools w) in
        let w1 := withTools c1 (record (EvEditTool toolId update) w) in
        let accepted := respond 302 (PRedirect ("/" ++ resourceSlug req ++ "/tools")) in
        if bool_decide (type existingTool = FUNCTION_TOOL)
           && negb (bool_decide (b_type b = FUNCTION_TOOL))
        then
          let w2 := record (EvDeleteFunction (functionId existingTool)) w1 in
          match fp_deleteFunction functionProvider (functionId existingTool) with
          | Fulfilled _ => (accepted, w2, None)
          | Rejected e => (Rejected e, w2, None)
          | Pending => (Pending, w2, None)
          end
        else if bool_decide (b_type b = FUNCTION_TOOL) && needsUpdate
        then
          let functionId := uuidv4 nd in
          let args := deployArgs toolData functionId (b_runtime b) in
          let w2 := record (EvDeployFunction args) w1 in
          match fp_deployFunction functionProvider args with
          | Normal deployed =>
              (accepted, w2,
               Some {| a_flow := EditFlow existingTool;
                       a_functionId := functionId;
                       a_toolId := toolId; a_request := req;
                       a_deployed := deployed |})
          | Throw e =>
              let w3 := record (EvDeleteFunction (Some functionId)) w2 in
              let failed := statePatch ERROR None None in
              let '(_, c4) := editTool (resourceSlug req) toolId failed (tools w3) in
              let w4 := withTools c4 (record (EvEditTool toolId failed) w3) in
              (respond 400 (PError "Error deploying or testing function"), w4, None)
          end
        else (accepted, w1, None)
      end
  end.

Definition deleteToolApi (req : Request) (w : World)
    : Promise Response * World :=
  match b_toolId (body req) with
  | None => (respond 400 (PError "Invalid inputs"), w)
  | Some toolId =>
    if negb (truthy (Some toolId))
       || negb (bool_decide (String.length toolId = 24%nat))
    then (respond 400 (PError "Invalid inputs"), w)
    else
      match getToolById (resourceSlug req) (Some toolId) (tools w) with
      | None => (respond 404 (PError "Tool not found"), w)
      | Some existingTool =>
        let removeBoth (w0 : World) :=
          let '(_, c1) := deleteToolById (resourceSlug req) toolId (tools w0) in
          let w1 := withTools c1 (record (EvDeleteToolById toolId) w0) in
          withAgents (removeAgentsTool (resourceSlug req) toolId (agents w1))
                     (record (EvRemoveAgentsTool toolId) w1) in
        if bool_decide (type existingTool = FUNCTION_TOOL) then
          let w1 := record (EvDeleteFunction (functionId existingTool)) w in
          match fp_deleteFunction functionProvider (functionId existingTool) with
          | Fulfilled _ => (respond 302 PEmpty, removeBoth w1)
          | Rejected e => (Rejected e, w1)
          | Pending => (Pending, w1)
          end
        else (respond 302 PEmpty, removeBoth w)
      end
  end.

End Controller.

(** The Google provider behind the controller's interface.  Every method
    of the class is [async]: a call returns a promise and never throws.
    The status requests of the wait follow the existence probe of the
    deploy; [getFunctionLogs] belongs to the base class, which is not among
    the sources. *)
Definition GoogleFunctionProvider (cfg : Provider.Config)
    (backend : Provider.Backend) (WrapToolCode : option string -> string)
    (StandardRequirements : list string)
    (getFunctionLogs : FunctionId -> Promise string) : FunctionProvider :=
  {| fp_deployFunction := fun args =>
       Normal (fst (Provider.deployFunction cfg backend WrapToolCode
                                            StandardRequirements args
                                            Provider.idle));
     fp_deleteFunction := fun functionId =>
       fst (Provider.deleteFunction cfg backend functionId Provider.idle);
     fp_waitForFunctionToBeActive := fun functionId =>
       match Provider.waitForFunctionToBeActive cfg backend functionId
               Provider.defaultMaxWaitTime Provider.probed with
       | Some (r, _) => r
       | None => Pending
       end;
     fp_getFunctionLogs := getFunctionLogs |}.

End ToolController.

(** ** Concrete requests, worlds and providers for the examples *)
Module Scenario.
Import ToolDb ToolController.

Definition team : string := "65f0c0ffee0000000000aaaa".
Definition org : string := "65f0c0ffee0000000000bbbb".
Definition toolKey : string := "65f0c0ffee0000000000cccc".

Definition acceptAll (b : Body) : option string := None.
Definition snake (s : string) : string := s.
Definition runtimes : list string := ["python310"; "python311"].
Definition noFilename (a : unit) : string := "icon.png".
Definition traceback (functionId : FunctionId) : Promise string :=
  Fulfilled "Traceback (most recent call last)".

Definition emptyWorld : World (Asset := unit) :=
  {| tools := ∅; agents := ∅; assets := ∅; trace := [] |}.

Definition handlerData (source : string) : ToolData :=
  {| code := Some source;
     requirements := Some "requests";
     environmentVariables := Some {[ "API_KEY" := "secret" ]};
     d_description := Some "adds one";
     parameters := Some "{}";
     builtin := None;
     d_name := None |}.

Definition toolBody (type : ToolType) (toolId : option string)
    (data : ToolData) (description : string) : Body :=
  {| b_name := "adder"; b_type := type; b_data := data; b_toolId := toolId;
     b_schema := None; b_datasourceId := None;
     b_description := Some description; b_iconId := None;
     b_retriever := None; b_retriever_config := None; b_runtime := None |}.

Definition request (b : Body) : Request :=
  {| body := b; resourceSlug := team; matchingOrgId := org |}.

Definition draws (functionId : FunctionId) : Nondet :=
  {| uuidv4 := functionId; insertedId := Some toolKey; foundDatasource := false |}.

(** A backend on which every deploy is accepted as a new function and
    function fn-a is the only one to become ACTIVE. *)
Definition onlyAActivates : Provider.Backend :=
  {| Provider.be_uploadBuffer := fun _ => Fulfilled tt;
     Provider.be_getFunction := fun name k =>
       match k with
       | O => Rejected Provider.notFound
       | S _ =>
           if decide (name = Provider.functionNameOf Provider.exampleConfig (Some "fn-a"))
           then Fulfilled "ACTIVE" else Fulfilled "FAILED"
       end;
     Provider.be_latency := fun _ _ => 0%N;
     Provider.be_updateFunction := fun _ => Fulfilled tt;
     Provider.be_createFunction := fun _ => Fulfilled tt;
     Provider.be_deleteFunction := fun _ => Fulfilled tt |}.

Definition google (backend : Provider.Backend) : FunctionProvider :=
  GoogleFunctionProvider Provider.exampleConfig backend (default EmptyString)
                         ["functions-framework"] traceback.

Definition add (fp : FunctionProvider) :=
  addToolApi noFilename acceptAll snake runtimes fp.
Definition edit (fp : FunctionProvider) :=
  editToolApi (Asset := unit) acceptAll snake fp.
Definition settleIn (fp : FunctionProvider) (a : option Attempt)
    (w : World (Asset := unit)) : World :=
  match a with
  | Some a => settle fp a w
  | None => w
  end.

(** *** Create, then edit the code; the edit's deployment fails first, the
    create's deployment activates afterwards *)
Definition created := add (google onlyAActivates)
  (request (toolBody FUNCTION_TOOL None (handlerData "def handler(): return 1") "adds one"))
  (draws "fn-a") emptyWorld.
Definition edited := edit (google onlyAActivates)
  (request (toolBody FUNCTION_TOOL (Some toolKey)
                     (handlerData "def handler(): return 2") "adds one"))
  (draws "fn-b") created.1.2.
(** The attempt the create request leaves in flight. *)
Definition creation : Attempt :=
  {| a_flow := AddFlow;
     a_functionId := "fn-a";
     a_toolId := toolKey;
     a_request :=
       request (toolBody FUNCTION_TOOL None
                         (handlerData "def handler(): return 1") "adds one");
     a_deployed :=
       Fulfilled (Provider.functionNameOf Provider.exampleConfig (Some "fn-a")) |}.
Definition afterB := settleIn (google onlyAActivates) edited.2 edited.1.2.
Definition afterA := settleIn (google onlyAActivates) created.2 afterB.

(** *** Create against a backend whose [createFunction] fails *)
Definition createFails : Provider.Backend :=
  Provider.scripted (Rejected Provider.notFound)
                    (Rejected Provider.internalError) (fun _ => "ACTIVE").
Definition failedCreate := add (google createFails)
  (request (toolBody FUNCTION_TOOL None (handlerData "def handler(): return 1") "adds one"))
  (draws "fn-a") emptyWorld.
Definition afterFailedCreate :=
  settleIn (google createFails) failedCreate.2 failedCreate.1.2.

(** *** Edit only the description of a READY tool *)
Definition readyTool (data : ToolData) : Tool :=
  {| orgId := org; teamId := team; name := "adder";
     description := Some "adds one"; type := FUNCTION_TOOL;
     datasourceId := None; retriever_type := None; retriever_config := "{}";
     schema := None;
     data := toolDataOf snake (toolBody FUNCTION_TOOL None data "adds one");
     icon := None; state := READY;
     functionId := Some "fn-123"; functionLogs := None; runtime := None |}.

Definition readyWorld (data : ToolData) : World (Asset := unit) :=
  {| tools := {[ toolKey := readyTool data ]}; agents := ∅; assets := ∅;
     trace := [] |}.

Definition allActivate : Provider.Backend :=
  Provider.scripted (Rejected Provider.notFound) (Fulfilled tt) (fun _ => "ACTIVE").

Definition plainData : ToolData :=
  {| code := Some "def handler(): return 1"; requirements := Some "requests";
     environmentVariables := None; d_description := Some "adds one";
     parameters := Some "{}"; builtin := None; d_name := None |}.

Definition describeRequest (data : ToolData) : Request :=
  request (toolBody FUNCTION_TOOL (Some toolKey) data "adds one to its input").

Definition described (data : ToolData) :=
  edit (google allActivate) (describeRequest data) (draws "fn-new")
       (readyWorld data).

(** The attempt the edit leaves in flight when it redeploys. *)
Definition redeployment (data : ToolData) : Attempt :=
  {| a_flow := EditFlow (readyTool data);
     a_functionId := "fn-new";
     a_toolId := toolKey;
     a_request := describeRequest data;
     a_deployed :=
       Fulfilled (Provider.functionNameOf Provider.exampleConfig (Some "fn-new")) |}.

(** State, functionId, code and logs of the tool of the examples. *)
Definition summary (w : World (Asset := unit))
    : option (ToolState * option FunctionId * option string * option string) :=
  (fun t => (state t, functionId t, code (data t), functionLogs t))
  <$> tools w !! toolKey.

(** *** Delete the READY tool *)
Definition deleteRequest : Request :=
  request (toolBody FUNCTION_TOOL (Some toolKey) plainData "adds one").

End Scenario.

(** ** Vocabulary for the timing of the wait loop *)
Module Polling.
Import Provider.

Section Timing.
Variable cfg : Config.
Variable backend : Backend.

(** The time slept before poll number [n] of a run (polls counted from 0)
    on which every earlier poll saw DEPLOYING. *)
Fixpoint sleptBefore (n : nat) : Z :=
  match n with
  | O => 0
  | S n' => sleptBefore n' + backoff n'
  end.

(** The time from a loop condition evaluated with the [i]-th delay pending
    and [g] status requests issued, until the condition is evaluated [k]
    passes later: the durations of the [k] status requests and the [k]
    sleeps in between. *)
Fixpoint timeToPoll (functionId : FunctionId) (i g k : nat) : Z :=
  match k with
  | O => 0
  | S k' =>
      Z.of_N (be_latency backend (functionNameOf cfg (Some functionId)) g)
      + backoff i + timeToPoll functionId (S i) (S g) k'
  end.

End Timing.
End Polling.

(** ** components/SortableItem.tsx: one field of a form being built *)
Module SortableItem.

(** The properties of a [Partial<FormFieldConfig>] the component reads or
    writes (struct/task is not among the sources); a property that is
    absent is [None]. *)
Record FormFieldConfig := {
  name : option string;
  label : option string;
  description : option string;
  tooltip : option string;
  type : option string;
  required : option bool;
  options : option (list string)
}.

(** [{ ...prevConfig, options }] *)
Definition withOptions (o : option (list string)) (prevConfig : FormFieldConfig)
    : FormFieldConfig :=
  {| name := name prevConfig; label := label prevConfig;
     description := description prevConfig; tooltip := tooltip prevConfig;
     type := type prevConfig; required := required prevConfig;
     options := o |}.

(** The text inputs wired to [handleChange], by their [name] attribute. *)
Inductive TextInput := InputName | InputLabel | InputDescription | InputTooltip.

(** What [handleChange] is called with: the boolean of the switch, or the
    change event of a text input. *)
Inductive ChangeEvent :=
| Switched (checked : bool)
| Typed (input : TextInput) (value : string).

(** The state updater of [handleChange]; its result is also what
    [editItem] is called with. *)
Definition handleChange (e : ChangeEvent) (prevConfig : FormFieldConfig)
    : FormFieldConfig :=
  match e with
  | Switched checked =>
      {| name := name prevConfig; label := label prevConfig;
         description := description prevConfig; tooltip := tooltip prevConfig;
         type := type prevConfig; required := Some checked;
         options := options prevConfig |}
  | Typed InputName value =>
      {| name := Some value; label := label prevConfig;
         description := description prevConfig; tooltip := tooltip prevConfig;
         type := type prevConfig; required := required prevConfig;
         options := options prevConfig |}
  | Typed InputLabel value =>
      {| name := name prevConfig; label := Some value;
         description := description prevConfig; tooltip := tooltip prevConfig;
         type := type prevConfig; required := required prevConfig;
         options := options prevConfig |}
  | Typed InputDescription value =>
      {| name := name prevConfig; label := label prevConfig;
         description := Some value; tooltip := tooltip prevConfig;
         type := type prevConfig; required := required prevConfig;
         options := options prevConfig |}
  | Typed InputTooltip value =>
      {| name := name prevConfig; label := label prevConfig;
         description := description prevConfig; tooltip := Some value;
         type := type prevConfig; required := required prevConfig;
         options := options prevConfig |}
  end.

Definition handleTypeChange (value : string) (prevConfig : FormFieldConfig)
    : FormFieldConfig :=
  {| name := name prevConfig; label := label prevConfig;
     description := description prevConfig; tooltip := tooltip prevConfig;
     type := Some value; required := required prevConfig;
     options := options prevConfig |}.

Definition addOption (prevConfig : FormFieldConfig) : FormFieldConfig :=
  withOptions (Some (default [] (options prevConfig) ++ [EmptyString])%list)
              prevConfig.

(** [type === 'radio' || type === 'checkbox' || type === 'select'] *)
Definition isChoice (t : option string) : bool :=
  bool_decide (t = Some "radio") || bool_decide (t = Some "checkbox")
  || bool_decide (t = Some "select").

(** The effect that runs when the type changes: a choice field with no
    options gets one empty option.  [editItem] is not called. *)
Definition optionsEffect (formConfig : FormFieldConfig) : FormFieldConfig :=
  if isChoice (type formConfig)
     && match options formConfig with
        | None => true
        | Some l => bool_decide (length l = 0%nat)
        end
  then withOptions (Some [EmptyString]) formConfig
  else formConfig.

(** [array.filter((_, i) => keep(i))], the index counted from [i]. *)
Fixpoint filterIndex {A} (keep : nat -> bool) (i : nat) (l : list A) : list A :=
  match l with
  | [] => []
  | x :: r =>
      if keep i then x :: filterIndex keep (S i) r
      else filterIndex keep (S i) r
  end.

(** The handlers of the option input number [index].  The inputs are
    rendered by [formConfig?.options?.map] under the choice types:
    [renderedOptions] is the array that was mapped over, and [index] is one
    of its indices. *)
Definition onOptionChange (index : nat) (value : string)
    (renderedOptions : list string) (prevConfig : FormFieldConfig)
    : FormFieldConfig :=
  withOptions (Some (<[index := value]> renderedOptions)) prevConfig.

(** [None]: the key is not Enter and the state is not updated. *)
Definition onOptionKeyDown (key : string) (renderedOptions : list string)
    (prevConfig : FormFieldConfig) : option FormFieldConfig :=
  if decide (key = "Enter")
  then Some (withOptions (Some (renderedOptions ++ [EmptyString])%list)
                         prevConfig)
  else None.

Definition onOptionRemove (index : nat) (renderedOptions : list string)
    (prevConfig : FormFieldConfig) : FormFieldConfig :=
  withOptions
    (Some (filterIndex (fun i => negb (Nat.eqb i index)) 0 renderedOptions))
    prevConfig.

End SortableItem.

(** ** The billing page: [classNames] *)
Module Billing.

(** [classes.filter(Boolean).join(' ')].  A class is a string or one of
    the falsy values [false], [undefined], [null], which are [None]; the
    empty string is falsy too. *)
Definition classNames (classes : list (option string)) : string :=
  Provider.join " "
    (default EmptyString
     <$> filter (fun c => Is_true (ToolController.truthy c)) classes).

End Billing.

(** ** Further examples *)
Module Examples.
Import ToolDb ToolController Scenario.

(** The deploy of the examples. *)
Definition exampleArgs : Provider.DeployFunctionArgs :=
  {| Provider.id := "fn-123";
     Provider.code := Some "def handler(): return 1";
     Provider.requirements := Some "requests";
     Provider.runtime := None;
     Provider.environmentVariables := None |}.

(** A backend whose storage refuses the upload. *)
Definition uploadFails : Provider.Backend :=
  {| Provider.be_uploadBuffer := fun _ => Rejected Provider.internalError;
     Provider.be_getFunction := fun _ _ => Fulfilled "ACTIVE";
     Provider.be_latency := fun _ _ => 0%N;
     Provider.be_updateFunction := fun _ => Fulfilled tt;
     Provider.be_createFunction := fun _ => Fulfilled tt;
     Provider.be_deleteFunction := fun _ => Fulfilled tt |}.

(** A backend on which a new function is DEPLOYING for two status
    requests and ACTIVE from the third. *)
Definition slowStart : Provider.Backend :=
  Provider.scripted (Rejected Provider.notFound) (Fulfilled tt)
    (fun k => if Nat.ltb k 2 then "DEPLOYING" else "ACTIVE").

(** A provider whose [deployFunction] throws at the call. *)
Definition throwing : FunctionProvider :=
  {| fp_deployFunction := fun _ => Throw Provider.internalError;
     fp_deleteFunction := fun _ => Fulfilled tt;
     fp_waitForFunctionToBeActive := fun _ => Fulfilled false;
     fp_getFunctionLogs := traceback |}.

Definition createRequest : Request :=
  request (toolBody FUNCTION_TOOL None
                    (handlerData "def handler(): return 1") "adds one").


(** An edit that turns the tool of the examples into a RAG tool. *)
Definition retypeRequest : Request :=
  request (toolBody RAG_TOOL (Some toolKey) plainData "looks things up").
Definition retyped :=
  edit (google allActivate) retypeRequest (draws "fn-unused")
       (readyWorld plainData).

(** The described tool is edited once more while its redeployment is in
    flight. *)
Definition describedAgain (data : ToolData) :=
  edit (google allActivate) (describeRequest data) (draws "fn-newer")
       (described data).1.2.
Definition laterRedeployment (data : ToolData) : Attempt :=
  default (redeployment data) (describedAgain data).2.

(** The edit of the first scenario, as the attempt it leaves in flight. *)
Definition edition : Attempt := default creation edited.2.

(** A radio field with three options. *)
Definition radioField : SortableItem.FormFieldConfig :=
  {| SortableItem.name := Some "colour";
     SortableItem.label := Some "Favourite colour";
     SortableItem.description := None;
     SortableItem.tooltip := None;
     SortableItem.type := Some "radio";
     SortableItem.required := Some true;
     SortableItem.options := Some ["red"; "green"; "blue"] |}.

End Examples.

(** * Properties *)

(** ** The wait loop *)
Section WaitLoopFacts.
Import Provider.
Variable cfg : Config.
Variable backend : Backend.

Local Open Scope list_scope.

Local Abbreviation nameOf functionId := (functionNameOf cfg (Some functionId)).
Local Abbreviation latency functionId k :=
  (Z.of_N (be_latency backend (nameOf functionId) k)).

Lemma backoff_double k : Z.min (backoff k * 2) 60000 = backoff (S k).
Proof.
  unfold backoff. rewrite Nat2Z.inj_succ, Z.pow_succ_r by lia.
  assert (0 < 2 ^ Z.of_nat k) by (apply Z.pow_pos_nonneg; lia).
  lia.
Qed.



Lemma backoff_bounds i : 5000 <= backoff i <= 60000.
Proof.
  unfold backoff.
  assert (0 < 2 ^ Z.of_nat i) by (apply Z.pow_pos_nonneg; lia).
  lia.
Qed.

Lemma schedule_ge w i : 5000 <= w -> 5000 <= schedule w i.
Proof. revert w. induction i as [|i IH]; intros w Hw; simpl; [done|]. apply IH. lia. Qed.

Lemma delaysOf_app l1 l2 : delaysOf (l1 ++ l2) = delaysOf l1 ++ delaysOf l2.
Proof.
  induction l1 as [|e l1 IH]; simpl; [done|].
  destruct e; simpl; by rewrite ?IH.
Qed.

(** [getFunctionState] never rejects: it issues one request and turns a
    failed one into the string ERROR. *)
Lemma getFunctionState_spec functionId s :
  getFunctionState cfg backend functionId s =
    (match observed cfg backend functionId (gets s) with
     | Some st => Fulfilled st
     | None => Pending
     end,
     {| now := now s + latency functionId (gets s);
        gets := S (gets s);
        effects := effects s ++ [GetFunction (nameOf functionId)] |}).
Proof.
  unfold getFunctionState, try_catch, getFunction, observed, ret.
  by destruct (be_getFunction backend _ _).
Qed.

(** Enough fuel: the loop returns. *)
Lemma waitLoop_total functionId startTime maxWaitTime fuel :
  forall waitTime s,
    5000 <= waitTime ->
    startTime + maxWaitTime - now s <= 5000 * Z.of_nat fuel ->
    exists res,
      waitLoop cfg backend (S fuel) functionId startTime maxWaitTime waitTime s
      = Some res.
Proof.
  induction fuel as [|fuel IH]; intros waitTime s Hw Ht.
  - simpl. destruct (Z.ltb_spec (now s - startTime) maxWaitTime); [lia|eauto].
  - cbn [waitLoop].
    destruct (Z.ltb_spec (now s - startTime) maxWaitTime); [|eauto].
    rewrite getFunctionState_spec.
    destruct (observed cfg backend functionId (gets s)) as [st|]; [|eauto].
    destruct (String.eqb st "ACTIVE"); [eauto|].
    destruct (negb (String.eqb st "DEPLOYING")); [eauto|].
    unfold sleep. apply IH; simpl; lia.
Qed.

Lemma waitForFunctionToBeActive_total functionId maxWaitTime s :
  exists res,
    waitForFunctionToBeActive cfg backend functionId maxWaitTime s = Some res.
Proof.
  unfold waitForFunctionToBeActive, fuelFor.
  apply waitLoop_total; [lia|].
  destruct (Z.le_gt_cases maxWaitTime 0) as [Hle|Hgt].
  - assert (0 <= Z.of_nat (Z.to_nat (maxWaitTime / 5000 + 1))) by lia. lia.
  - assert (0 <= maxWaitTime / 5000) by (apply Z.div_pos; lia).
    rewrite Z2Nat.id by lia.
    pose proof (Z.mod_pos_bound maxWaitTime 5000 ltac:(lia)).
    pose proof (Z.div_mod maxWaitTime 5000 ltac:(lia)). lia.
Qed.

(** What one run of the loop does, whatever the backend answers. *)
Lemma waitLoop_spec functionId startTime maxWaitTime fuel :
  forall waitTime s r s',
    waitLoop cfg backend fuel functionId startTime maxWaitTime waitTime s
    = Some (r, s') ->
    exists new,
      effects s' = effects s ++ new
      /\ (gets s <= gets s')%nat
      /\ (forall i d, delaysOf new !! i = Some d -> d = schedule waitTime i)
      /\ (gets s' = gets s ->
          s' = s /\ r = Fulfilled false /\ maxWaitTime <= now s - startTime)
      /\ ((gets s < gets s')%nat ->
          now s' - startTime
          < maxWaitTime + latency functionId (gets s' - 1)
            + default 0 (delaysOf new !! (gets s' - gets s - 1)%nat))
      /\ (forall k, (gets s <= k)%nat -> (S k < gets s')%nat ->
          observed cfg backend functionId k = Some "DEPLOYING")
      /\ (r = Fulfilled true <->
          (gets s < gets s')%nat
          /\ observed cfg backend functionId (gets s' - 1) = Some "ACTIVE")
      /\ (forall e, r <> Rejected e).
Proof.
  induction fuel as [|fuel IH]; intros waitTime s r s' Hrun; [done|].
  cbn [waitLoop] in Hrun.
  destruct (Z.ltb_spec (now s - startTime) maxWaitTime) as [Hlt|Hge].
  2:{ injection Hrun as <- <-. exists []. rewrite app_nil_r.
      repeat split; try done; lia. }
  rewrite getFunctionState_spec in Hrun.
  assert (Hone : forall r1,
    (r1 = Fulfilled true <-> observed cfg backend functionId (gets s) = Some "ACTIVE") ->
    (forall e, r1 <> Rejected e) ->
    Some (r1, {| now := now s + latency functionId (gets s); gets := S (gets s);
                 effects := effects s ++ [GetFunction (nameOf functionId)] |})
    = Some (r, s') ->
    exists new,
      effects s' = effects s ++ new
      /\ (gets s <= gets s')%nat
      /\ (forall i d, delaysOf new !! i = Some d -> d = schedule waitTime i)
      /\ (gets s' = gets s ->
          s' = s /\ r = Fulfilled false /\ maxWaitTime <= now s - startTime)
      /\ ((gets s < gets s')%nat ->
          now s' - startTime
          < maxWaitTime + latency functionId (gets s' - 1)
            + default 0 (delaysOf new !! (gets s' - gets s - 1)%nat))
      /\ (forall k, (gets s <= k)%nat -> (S k < gets s')%nat ->
          observed cfg backend functionId k = Some "DEPLOYING")
      /\ (r = Fulfilled true <->
          (gets s < gets s')%nat
          /\ observed cfg backend functionId (gets s' - 1) = Some "ACTIVE")
      /\ (forall e, r <> Rejected e)).
  { intros r1 Hr1 Hrej Heq. injection Heq as <- <-.
    exists [GetFunction (nameOf functionId)]. simpl.
    replace (gets s - 0)%nat with (gets s) by lia.
    replace (S (gets s) - gets s - 1)%nat with 0%nat by lia. simpl.
    split; [done|]. split; [lia|]. split; [done|]. split; [lia|].
    split; [lia|]. split; [lia|]. split; [|done].
    rewrite Hr1. split; [intros ?; split; [lia|done] | by intros [_ ?]]. }
  destruct (observed cfg backend functionId (gets s)) as [st|] eqn:Hobs.
  2:{ apply (Hone Pending); [split; congruence | congruence | done]. }
  destruct (String.eqb_spec st "ACTIVE") as [->|Hna].
  { apply (Hone (Fulfilled true)); [done | congruence | done]. }
  destruct (String.eqb_spec st "DEPLOYING") as [->|Hnd]; simpl in Hrun.
  2:{ apply (Hone (Fulfilled false)); [split; congruence | congruence | done]. }
  clear Hone.
  apply IH in Hrun as (new & Heff & Hgets & Hdel & Hnone & Hsome & Hdep & Htrue & Hrej).
  simpl in Heff, Hgets, Hnone, Hsome, Hdep, Htrue.
  exists ([GetFunction (nameOf functionId); SetTimeout waitTime] ++ new).
  split; [by rewrite Heff, <- !app_assoc|].
  split; [lia|].
  split.
  { intros [|i] d; simpl; [congruence|]. apply Hdel. }
  split; [lia|].
  split.
  { intros _. destruct (decide (gets s' = S (gets s))) as [Heq|Hne].
    - destruct (Hnone Heq) as (-> & _ & _). simpl.
      replace (S (gets s) - gets s - 1)%nat with 0%nat by lia.
      replace (gets s - 0)%nat with (gets s) by lia. simpl. lia.
    - replace (gets s' - gets s - 1)%nat with (S (gets s' - S (gets s) - 1)) by lia.
      simpl. apply Hsome. lia. }
  split.
  { intros k Hk Hk'. destruct (decide (k = gets s)) as [->|Hne]; [done|].
    apply Hdep; lia. }
  split; [|done].
  rewrite Htrue. split.
  - intros [? ?]. split; [lia|done].
  - intros [_ Hact]. split; [|done].
    destruct (decide (gets s' = S (gets s))) as [Heq|]; [|lia].
    rewrite Heq in Hact. simpl in Hact.
    replace (gets s - 0)%nat with (gets s) in Hact by lia. congruence.
Qed.


(** C5. A first status answer other than DEPLOYING ends the wait after that
    one request, without a sleep or a second request: with true when the
    answer is ACTIVE, with false otherwise.  In every run the wait returns
    true exactly when its last status request saw ACTIVE, and every request
    before the last saw DEPLOYING. *)
Theorem waitForFunctionToBeActive_short_circuit functionId maxWaitTime s :
  0 < maxWaitTime ->
  (forall st,
     observed cfg backend functionId (gets s) = Some st ->
     st <> "DEPLOYING" ->
     waitForFunctionToBeActive cfg backend functionId maxWaitTime s
     = Some (Fulfilled (String.eqb st "ACTIVE"),
             {| now := now s + latency functionId (gets s);
                gets := S (gets s);
                effects := effects s ++ [GetFunction (nameOf functionId)] |}))
  /\ (forall r s',
       waitForFunctionToBeActive cfg backend functionId maxWaitTime s
       = Some (r, s') ->
       (r = Fulfilled true <->
        (gets s < gets s')%nat
        /\ observed cfg backend functionId (gets s' - 1) = Some "ACTIVE")
       /\ (forall k, (gets s <= k)%nat -> (S k < gets s')%nat ->
           observed cfg backend functionId k = Some "DEPLOYING")).
Proof.
  intros Hmax. split.
  - intros st Hobs Hnd.
    unfold waitForFunctionToBeActive, fuelFor. cbn [waitLoop].
    destruct (Z.ltb_spec (now s - now s) maxWaitTime) as [_|?]; [|lia].
    rewrite getFunctionState_spec, Hobs.
    destruct (String.eqb_spec st "ACTIVE") as [->|Hna]; [done|].
    by destruct (String.eqb_spec st "DEPLOYING").
  - intros r s' Hrun.
    apply waitLoop_spec in Hrun as (new & _ & _ & _ & _ & _ & Hdep & Htrue & _).
    done.
Qed.

End WaitLoopFacts.


(** ** The existence check of [deployFunction] *)
Section DeployFacts.
Import Provider.
Variable cfg : Config.
Variable backend : Backend.
Variable WrapToolCode : option string -> string.
Variable StandardRequirements : list string.

Local Open Scope list_scope.

Local Abbreviation deploy := (deployFunction cfg backend WrapToolCode StandardRequirements).
Local Abbreviation zipOf := (zipBuffer WrapToolCode StandardRequirements).

(** C7. Once the archive is uploaded, the answer to the existence probe
    selects the branch: NOT_FOUND (code 5) leads to [createFunction] with the
    location added, an answer leads to [updateFunction], and any other
    failure of the probe rejects the deploy with that error before either
    call is made. *)
Theorem deployFunction_existence_check args s :
  let key := (functionPath args ++ "/function.zip")%string in
  let name := functionNameOf cfg (Some (id args)) in
  let upload := UploadBuffer key (zipOf args) "application/zip" in
  let request := deployRequest cfg args in
  be_uploadBuffer backend key = Fulfilled tt ->
  (forall e,
     be_getFunction backend name (gets s) = Rejected e ->
     err_code e = Some 5 ->
     let create := withLocation request (locationOf cfg) in
     fst (deploy args s) = andThen (be_createFunction backend create) name
     /\ effects (snd (deploy args s))
        = effects s ++ [upload; GetFunction name; CreateFunction create])
  /\ (forall st,
     be_getFunction backend name (gets s) = Fulfilled st ->
     fst (deploy args s) = andThen (be_updateFunction backend request) name
     /\ effects (snd (deploy args s))
        = effects s ++ [upload; GetFunction name; UpdateFunction request])
  /\ (forall e,
     be_getFunction backend name (gets s) = Rejected e ->
     err_code e <> Some 5 ->
     fst (deploy args s) = Rejected e
     /\ effects (snd (deploy args s)) = effects s ++ [upload; GetFunction name]).
Proof.
  intros key name upload request Hup.
  unfold deployFunction, bind, await, try_catch, getFunction, ret, throw.
  fold key. rewrite Hup. simpl. fold name.
  split; [|split].
  - intros e Hprobe Hcode. rewrite Hprobe.
    destruct (decide (err_code e = Some 5)); [|done].
    fold request.
    destruct (be_createFunction backend _); simpl;
      by rewrite <- !app_assoc.
  - intros st Hprobe. rewrite Hprobe. fold request.
    destruct (be_updateFunction backend request); simpl;
      by rewrite <- !app_assoc.
  - intros e Hprobe Hcode. rewrite Hprobe.
    destruct (decide (err_code e = Some 5)); [done|]. simpl.
    by rewrite <- !app_assoc.
Qed.

End DeployFacts.

(** ** Collections *)
Section MongoFacts.
Context {Doc : Type} `{EqDecision Doc}.
Implicit Types (c : gmap string Doc) (filter : Doc -> bool) (set : Doc -> Doc).

Lemma updateOne_matched _id filter set c d :
  c !! _id = Some d -> filter d = true ->
  Mongo.updateOne _id filter set c
  = ({| Mongo.matchedCount := 1;
        Mongo.modifiedCount := if decide (set d = d) then 0 else 1 |},
     <[_id := set d]> c).
Proof. intros Hd Hf. unfold Mongo.updateOne, Mongo.findOne. by rewrite Hd, Hf. Qed.

Lemma updateOne_unmatched _id filter set c :
  Mongo.findOne _id filter c = None ->
  Mongo.updateOne _id filter set c
  = ({| Mongo.matchedCount := 0; Mongo.modifiedCount := 0 |}, c).
Proof. intros Hd. unfold Mongo.updateOne. by rewrite Hd. Qed.

Lemma updateOne_modified_matched _id filter set c :
  (Mongo.modifiedCount (Mongo.updateOne _id filter set c).1
   <= Mongo.matchedCount (Mongo.updateOne _id filter set c).1 <= 1)%nat.
Proof.
  unfold Mongo.updateOne. destruct (Mongo.findOne _id filter c); simpl; [|lia].
  destruct (decide _); lia.
Qed.

End MongoFacts.

(** ** db/asset.ts *)
Section AssetFacts.
Context {Asset PartialAsset : Type} `{EqDecision Asset}.
Variable set_fields : PartialAsset -> Asset -> Asset.

(** C10. [updateAsset] answers whether a document with the id exists:
    true even when the update leaves the document as it was (nothing
    modified), false (no exception) when there is none; in both of these
    cases the collection is left as it was. *)
Theorem updateAsset_true_iff_exists (assetId : string)
    (updateData : PartialAsset) (c : gmap string Asset) :
  ((AssetDb.updateAsset set_fields assetId updateData c).1 = true
   <-> is_Some (c !! toObjectId assetId))
  /\ (forall a,
        c !! toObjectId assetId = Some a ->
        set_fields updateData a = a ->
        Mongo.modifiedCount
          (Mongo.updateOne (toObjectId assetId) (fun _ => true)
                           (set_fields updateData) c).1 = 0%nat
        /\ AssetDb.updateAsset set_fields assetId updateData c = (true, c))
  /\ (c !! toObjectId assetId = None ->
      AssetDb.updateAsset set_fields assetId updateData c = (false, c)).
Proof.
  unfold AssetDb.updateAsset.
  destruct (c !! toObjectId assetId) as [a|] eqn:Ha.
  - rewrite (updateOne_matched _ _ _ _ a) by done. simpl.
    split; [by split; eauto|]. split; [|done].
    intros a' [= <-] Hsame. rewrite Hsame.
    destruct (decide (a = a)); [|done]. by rewrite insert_id.
  - rewrite updateOne_unmatched by (unfold Mongo.findOne; by rewrite Ha). simpl.
    split; [split; [done|by intros [? ?]]|]. by split.
Qed.

End AssetFacts.

(** ** The tool controller *)
Section ControllerFacts.
Import ToolDb ToolController.
Context {Asset : Type}.
Variable assetFilename : Asset -> string.
Variable validateTool : Body -> option string.
Variable toSnakeCase : string -> string.
Variable runtimeValues : list string.
Variable functionProvider : FunctionProvider.

Local Open Scope list_scope.

Implicit Types (w : World (Asset := Asset)) (a : Attempt) (t : Tool).

Lemma matches_editFilter a t :
  matches (editFilter a) t = true
  <-> teamId t = toObjectId (resourceSlug (a_request a))
      /\ state t = PENDING /\ type t = FUNCTION_TOOL.
Proof.
  unfold matches, editFilter, requires; simpl.
  rewrite !andb_true_iff, !bool_decide_eq_true. intuition congruence.
Qed.

Lemma matches_addFilter a t :
  matches (addFilter a) t = true
  <-> teamId t = toObjectId (resourceSlug (a_request a))
      /\ functionId t = Some (a_functionId a) /\ type t = FUNCTION_TOOL.
Proof.
  unfold matches, addFilter, requires; simpl.
  rewrite !andb_true_iff, !bool_decide_eq_true. intuition congruence.
Qed.

(** The part of [settle] before the conditional update. *)
Lemma settle_reconciles a w name isActive logs :
  a_deployed a = Fulfilled name ->
  fp_waitForFunctionToBeActive functionProvider (a_functionId a) = Fulfilled isActive ->
  fp_getFunctionLogs functionProvider (a_functionId a) = logs ->
  logs <> Pending ->
  settle functionProvider a w =
    let w2 := record (EvGetFunctionLogs (a_functionId a))
                (record (EvWaitForFunctionToBeActive (a_functionId a)) w) in
    match a_flow a with
    | AddFlow => reconcileAdd a isActive (caught logs) w2
    | EditFlow existingTool => reconcileEdit a existingTool isActive (caught logs) w2
    end.
Proof.
  intros Hd Hw Hl Hp. unfold settle. rewrite Hd, Hw, Hl.
  by destruct logs.
Qed.

Lemma applyPatch_statePatch st newId logs t :
  let t' := applyPatch (statePatch st newId logs) t in
  state t' = st
  /\ functionId t' = match newId with Some f => Some f | None => functionId t end
  /\ functionLogs t' = match logs with Some l => Some l | None => functionLogs t end
  /\ orgId t' = orgId t /\ teamId t' = teamId t /\ name t' = name t
  /\ description t' = description t /\ type t' = type t /\ data t' = data t
  /\ runtime t' = runtime t.
Proof. by repeat split. Qed.

(** The edit flow's callback when its conditional update selects the
    document. *)
Lemma settle_edit_matched a existingTool t name isActive logs w :
  a_flow a = EditFlow existingTool ->
  a_deployed a = Fulfilled name ->
  fp_waitForFunctionToBeActive functionProvider (a_functionId a)
  = Fulfilled isActive ->
  fp_getFunctionLogs functionProvider (a_functionId a) = logs ->
  logs <> Pending ->
  tools w !! toObjectId (a_toolId a) = Some t ->
  matches (editFilter a) t = true ->
  let n :=
    deploymentNotification (orgId existingTool) (teamId existingTool)
      (a_toolId a) (b_name (body (a_request a))) isActive in
  tools (settle functionProvider a w)
  = <[toObjectId (a_toolId a) := applyPatch (editUpdate a isActive (caught logs)) t]>
      (tools w)
  /\ trace (settle functionProvider a w)
     = trace w
       ++ [EvWaitForFunctionToBeActive (a_functionId a);
           EvGetFunctionLogs (a_functionId a);
           conditionalUpdate a isActive (caught logs);
           EvAddNotification n; EvEmit (resourceSlug (a_request a)) n]
       ++ (if isActive
           then (if truthy (functionId existingTool)
                 then [EvDeleteFunction (functionId existingTool)] else [])
           else [EvDeleteFunction (Some (a_functionId a))]).
Proof.
  intros Hflow Hdep Hwait Hlogs Hset Hlook Hm n.
  rewrite (settle_reconciles a w name isActive logs) by done.
  unfold conditionalUpdate. rewrite Hflow. cbn zeta.
  unfold reconcileEdit, editToolUnsafe. cbn [tools record].
  rewrite (updateOne_matched _ _ _ _ t) by done.
  set (t' := applyPatch (editUpdate a isActive (caught logs)) t).
  assert (Hne : t' <> t).
  { intros Heq. apply (f_equal state) in Heq. subst t'.
    apply matches_editFilter in Hm as (_ & Hstate & _). rewrite Hstate in Heq.
    by destruct isActive. }
  destruct (decide (t' = t)) as [|_]; [done|]. cbn [Mongo.modifiedCount Nat.eqb].
  subst n.
  destruct isActive, (truthy (functionId existingTool)); simpl;
    by rewrite <- ?app_assoc.
Qed.


(** C9. A create request that is answered 302 has inserted the tool under
    the id the driver reported.  For a type other than FUNCTION_TOOL the
    document is READY with no functionId, [deployFunction] was not called
    and no attempt is in flight; for a FUNCTION_TOOL it is PENDING with the
    id [uuidv4()] returned, and the deploy was called with that id. *)
Theorem addToolApi_persisted_state req nd w resp :
  let r := addToolApi assetFilename validateTool toSnakeCase runtimeValues
                      functionProvider req nd w in
  r.1.1 = Fulfilled resp ->
  status resp = 302 ->
  exists added tool,
    insertedId nd = Some added
    /\ tools r.1.2 !! added = Some tool
    /\ type tool = b_type (body req)
    /\ (b_type (body req) <> FUNCTION_TOOL ->
        state tool = READY /\ functionId tool = None
        /\ r.2 = None
        /\ trace r.1.2 = trace w ++ [EvAddTool tool])
    /\ (b_type (body req) = FUNCTION_TOOL ->
        state tool = PENDING /\ functionId tool = Some (uuidv4 nd)
        /\ (exists a, r.2 = Some a /\ a_functionId a = uuidv4 nd)
        /\ exists args,
            Provider.id args = uuidv4 nd
            /\ trace r.1.2 = trace w ++ [EvAddTool tool; EvDeployFunction args])
    /\ (state tool = PENDING <-> b_type (body req) = FUNCTION_TOOL).
Proof.
  intros r. subst r. unfold addToolApi, respond.
  destruct (validateTool (body req)); [by intros [= <-]|].
  destruct (invalidDatasource _ _); [by intros [= <-]|].
  destruct (invalidRuntime _ _); [by intros [= <-]|].
  unfold addTool. destruct (insertedId nd) as [added|]; [|by intros [= <-]].
  cbn zeta.
  destruct (decide (b_type (body req) = FUNCTION_TOOL)) as [Hfn|Hfn].
  - rewrite bool_decide_eq_true_2 by done.
    destruct (fp_deployFunction functionProvider _) as [deployed|e];
      [|by destruct (editTool _ _ _ _); intros [= <-]].
    intros _ _. eexists added, _. split; [done|].
    split; [apply lookup_insert_eq|]. simpl.
    split; [done|]. split; [done|].
    split; [|done]. intros _. split; [done|]. split; [done|].
    split; [by eexists|]. eexists. split; [|by rewrite <- app_assoc]. done.
  - rewrite bool_decide_eq_false_2 by done.
    intros _ _. eexists added, _. split; [done|].
    split; [apply lookup_insert_eq|]. simpl.
    split; [done|]. split; [done|]. split; [done|]. split; [done|done].
Qed.

(** An attempt whose deploy promise was rejected leaves nothing behind but
    the unhandled rejection: the [then] callback is never run, and the
    [catch] block around the call is not entered, the call having returned
    a promise. *)
Lemma settle_deploy_rejected a w e :
  a_deployed a = Rejected e ->
  settle functionProvider a w = record (EvUnhandledRejection e) w.
Proof. intros Hd. unfold settle. by rewrite Hd. Qed.

(** A create request that leaves an attempt in flight whose deploy is then
    rejected: the tool is PENDING before and after the rejection, and
    [deleteFunction] is never called. *)
Lemma addToolApi_rejected_deploy_stays_pending req nd w a e :
  let r := addToolApi assetFilename validateTool toSnakeCase runtimeValues
                      functionProvider req nd w in
  r.2 = Some a ->
  a_deployed a = Rejected e ->
  let w' := settle functionProvider a r.1.2 in
  tools w' = tools r.1.2
  /\ deletions (drop (length (trace w)) (trace w')) = []
  /\ exists t, tools w' !! a_toolId a = Some t /\ state t = PENDING.
Proof.
  intros r Hatt Hrej w'. subst w'. rewrite (settle_deploy_rejected a _ e Hrej).
  subst r. revert Hatt. unfold addToolApi, respond.
  destruct (validateTool (body req)); [done|].
  destruct (invalidDatasource _ _); [done|].
  destruct (invalidRuntime _ _); [done|].
  unfold addTool. destruct (insertedId nd) as [added|]; [|done].
  cbn zeta.
  destruct (bool_decide (b_type (body req) = FUNCTION_TOOL)); [|done].
  destruct (fp_deployFunction functionProvider _) as [deployed|e'];
    [|by destruct (editTool _ _ _ _)].
  intros [= <-]. simpl. split; [done|].
  rewrite <- !app_assoc, drop_app_length. split; [done|].
  eexists. split; [apply lookup_insert_eq|done].
Qed.

(** C8. Deleting a FUNCTION_TOOL first asks the provider to delete the
    tool's function.  Only when that deletion has completed are the tool
    and then its references in the agents removed; when it fails or never
    completes, the request ends there and nothing is removed. *)
Theorem deleteToolApi_deletes_function_first req w toolId existingTool :
  b_toolId (body req) = Some toolId ->
  String.length toolId = 24%nat ->
  getToolById (resourceSlug req) (Some toolId) (tools w) = Some existingTool ->
  type existingTool = FUNCTION_TOOL ->
  let r := deleteToolApi functionProvider req w in
  let deletion := fp_deleteFunction functionProvider (functionId existingTool) in
  (forall u, deletion = Fulfilled u ->
     r.1 = respond 302 PEmpty
     /\ trace r.2 = trace w ++ [EvDeleteFunction (functionId existingTool);
                                EvDeleteToolById toolId;
                                EvRemoveAgentsTool toolId]
     /\ tools r.2 = delete (toObjectId toolId) (tools w)
     /\ agents r.2 = removeAgentsTool (resourceSlug req) toolId (agents w))
  /\ ((forall u, deletion <> Fulfilled u) ->
      r.1 = andThen deletion {| status := 302; payload := PEmpty |}
      /\ trace r.2 = trace w ++ [EvDeleteFunction (functionId existingTool)]
      /\ tools r.2 = tools w
      /\ agents r.2 = agents w).
Proof.
  intros Hid Hlen Hget Htype r deletion. subst r deletion.
  unfold deleteToolApi. rewrite Hid.
  assert (Htruthy : truthy (Some toolId) = true).
  { unfold truthy. destruct toolId; [done|]. by rewrite bool_decide_eq_false_2. }
  rewrite Htruthy, bool_decide_eq_true_2, Hget, bool_decide_eq_true_2 by done.
  cbn [negb orb].
  destruct (fp_deleteFunction functionProvider (functionId existingTool)) as [u|e|].
  - split; [|by intros Hno; destruct (Hno u)]. intros _ _.
    unfold deleteToolById, Mongo.deleteOne. cbn [tools record].
    unfold getToolById in Hget. rewrite Hget. simpl.
    by rewrite <- !app_assoc.
  - split; [done|]. by intros _.
  - split; [done|]. by intros _.
Qed.

(** *** Edits that leave the function's inputs alone *)

Lemma getToolById_Some resourceSlug toolId (c : gmap string Tool) t :
  getToolById resourceSlug (Some toolId) c = Some t ->
  c !! toObjectId toolId = Some t /\ matches (byTeam resourceSlug) t = true.
Proof.
  unfold getToolById, Mongo.findOne.
  destruct (c !! toObjectId toolId) as [t'|]; [|done].
  destruct (matches (byTeam resourceSlug) t') eqn:Hm; [|done].
  by intros [= <-].
Qed.

(** Two environment-variable objects always count as a change. *)
Lemma functionNeedsUpdate_objects b t :
  is_Some (environmentVariables (b_data b)) ->
  functionNeedsUpdate b t = true.
Proof. intros [env Henv]. unfold functionNeedsUpdate. by rewrite Henv. Qed.

(** When none of the four inputs counts as changed, an edit of a
    FUNCTION_TOOL calls no deploy and keeps the functionId, yet it has
    written state PENDING with the rest of the form. *)
Lemma editToolApi_unchanged_function req nd w existingTool toolId :
  validateTool (body req) = None ->
  invalidDatasource (body req) nd = false ->
  b_toolId (body req) = Some toolId ->
  getToolById (resourceSlug req) (Some toolId) (tools w) = Some existingTool ->
  b_type (body req) = FUNCTION_TOOL ->
  functionNeedsUpdate (body req) existingTool = false ->
  let r := editToolApi validateTool toSnakeCase functionProvider req nd w in
  r.2 = None
  /\ deployments (drop (length (trace w)) (trace r.1.2)) = []
  /\ exists t',
      tools r.1.2 !! toObjectId toolId = Some t'
      /\ functionId t' = functionId existingTool
      /\ state t' = PENDING.
Proof.
  intros Hval Hds Hid Hget Htype Hsame r. subst r.
  unfold editToolApi. rewrite Hval, Hds, Hid, Hget, Hsame. cbn zeta.
  apply getToolById_Some in Hget as [Hlook Hm].
  unfold editTool. simpl default.
  rewrite (updateOne_matched _ _ _ _ existingTool) by done.
  rewrite Htype, (bool_decide_eq_true_2 (FUNCTION_TOOL = FUNCTION_TOOL)) by done.
  rewrite andb_false_r. cbn [negb andb fst snd tools record withTools trace].
  split; [done|]. split; [by rewrite drop_app_length|].
  eexists. split; [apply lookup_insert_eq|]. done.
Qed.

(** *** Supersession *)

(** An attempt whose conditional update selects no document deletes its own
    function and leaves the collections alone. *)
Lemma settle_superseded a w name isActive logs :
  a_deployed a = Fulfilled name ->
  fp_waitForFunctionToBeActive functionProvider (a_functionId a)
  = Fulfilled isActive ->
  fp_getFunctionLogs functionProvider (a_functionId a) = logs ->
  logs <> Pending ->
  (forall t, tools w !! toObjectId (a_toolId a) = Some t ->
     match a_flow a with
     | AddFlow => functionId t <> Some (a_functionId a)
     | EditFlow _ => state t <> PENDING
     end) ->
  tools (settle functionProvider a w) = tools w
  /\ agents (settle functionProvider a w) = agents w
  /\ trace (settle functionProvider a w)
     = trace w ++ [EvWaitForFunctionToBeActive (a_functionId a);
                   EvGetFunctionLogs (a_functionId a);
                   conditionalUpdate a isActive (caught logs);
                   EvDeleteFunction (Some (a_functionId a))].
Proof.
  intros Hdep Hwait Hlogs Hset Hmiss.
  rewrite (settle_reconciles a w name isActive logs) by done.
  unfold conditionalUpdate. cbn zeta.
  destruct (a_flow a) as [|existingTool].
  - unfold reconcileAdd, editToolUnsafe. cbn [tools record].
    rewrite updateOne_unmatched; [simpl; by rewrite <- !app_assoc|].
    unfold Mongo.findOne.
    destruct (tools w !! toObjectId (a_toolId a)) as [t|] eqn:Ht; [|done].
    destruct (matches (addFilter a) t) eqn:Hm; [|done].
    apply matches_addFilter in Hm as (_ & Hf & _). by destruct (Hmiss t).
  - unfold reconcileEdit, editToolUnsafe. cbn [tools record].
    rewrite updateOne_unmatched; [simpl; by rewrite <- !app_assoc|].
    unfold Mongo.findOne.
    destruct (tools w !! toObjectId (a_toolId a)) as [t|] eqn:Ht; [|done].
    destruct (matches (editFilter a) t) eqn:Hm; [|done].
    apply matches_editFilter in Hm as (_ & Hs & _). by destruct (Hmiss t).
Qed.

(** A create attempt that still finds its functionId on the record writes
    its outcome, whatever wrote the record's state before. *)
Lemma settle_add_still_named a t w name isActive logs :
  a_flow a = AddFlow ->
  a_deployed a = Fulfilled name ->
  fp_waitForFunctionToBeActive functionProvider (a_functionId a)
  = Fulfilled isActive ->
  fp_getFunctionLogs functionProvider (a_functionId a) = logs ->
  logs <> Pending ->
  tools w !! toObjectId (a_toolId a) = Some t ->
  matches (addFilter a) t = true ->
  state t <> (if isActive then READY else ERROR) ->
  tools (settle functionProvider a w)
  = <[toObjectId (a_toolId a) := applyPatch (addUpdate isActive (caught logs)) t]>
      (tools w)
  /\ deletions (drop (length (trace w)) (trace (settle functionProvider a w)))
     = (if isActive then [] else [Some (a_functionId a)]).
Proof.
  intros Hflow Hdep Hwait Hlogs Hset Hlook Hm Hstate.
  rewrite (settle_reconciles a w name isActive logs) by done.
  rewrite Hflow. cbn zeta. unfold reconcileAdd, editToolUnsafe. cbn [tools record].
  rewrite (updateOne_matched _ _ _ _ t) by done.
  set (t' := applyPatch (addUpdate isActive (caught logs)) t).
  assert (Hne : t' <> t).
  { intros Heq. apply (f_equal state) in Heq. subst t'. by destruct isActive. }
  destruct (decide (t' = t)) as [|_]; [done|]. cbn [Mongo.modifiedCount Nat.eqb].
  destruct isActive; simpl; (split; [done|]);
    by rewrite <- !app_assoc, drop_app_length.
Qed.

(** X5. Two edits of one tool, the later attempt [b] committing first: the
    earlier attempt [a] then changes nothing and deletes its function. *)
Lemma supersession_between_edits a b existingA existingB t w
    nameA nameB activeA activeB logsA logsB :
  a_flow a = EditFlow existingA -> a_flow b = EditFlow existingB ->
  a_toolId a = a_toolId b ->
  a_deployed a = Fulfilled nameA -> a_deployed b = Fulfilled nameB ->
  fp_waitForFunctionToBeActive functionProvider (a_functionId a)
  = Fulfilled activeA ->
  fp_waitForFunctionToBeActive functionProvider (a_functionId b)
  = Fulfilled activeB ->
  fp_getFunctionLogs functionProvider (a_functionId a) = logsA ->
  fp_getFunctionLogs functionProvider (a_functionId b) = logsB ->
  logsA <> Pending -> logsB <> Pending ->
  tools w !! toObjectId (a_toolId b) = Some t ->
  matches (editFilter b) t = true ->
  let wB := settle functionProvider b w in
  let wA := settle functionProvider a wB in
  tools wA = tools wB
  /\ (exists tB, tools wB !! toObjectId (a_toolId b) = Some tB
               /\ state tB = (if activeB then READY else ERROR))
  /\ trace wA
     = trace wB ++ [EvWaitForFunctionToBeActive (a_functionId a);
                    EvGetFunctionLogs (a_functionId a);
                    conditionalUpdate a activeA (caught logsA);
                    EvDeleteFunction (Some (a_functionId a))].
Proof.
  intros HfA HfB Hid HdA HdB HwA HwB HlA HlB HsA HsB Hlook Hm wB wA.
  destruct (settle_edit_matched b existingB t nameB activeB logsB w)
    as [HtB _]; try done.
  fold wB in HtB.
  set (tB := applyPatch (editUpdate b activeB (caught logsB)) t) in HtB.
  assert (HstB : state tB = (if activeB then READY else ERROR)) by done.
  assert (HlB' : tools wB !! toObjectId (a_toolId b) = Some tB).
  { by rewrite HtB, lookup_insert_eq. }
  destruct (settle_superseded a wB nameA activeA logsA) as (Ht & _ & Htr);
    try done.
  { rewrite HfA, Hid, HlB'. intros ? [= <-]. rewrite HstB. by destruct activeB. }
  split; [done|]. split; [by exists tB|done].
Qed.

(** X22. A create followed by an edit whose deployment activates and commits
    first: the record now names the edit's function, so the create's attempt
    changes nothing and deletes its function. *)
Lemma supersession_create_then_active_edit a b existingB t w
    nameA nameB activeA logsA logsB :
  a_flow a = AddFlow -> a_flow b = EditFlow existingB ->
  a_toolId a = a_toolId b ->
  a_functionId a <> a_functionId b ->
  a_deployed a = Fulfilled nameA -> a_deployed b = Fulfilled nameB ->
  fp_waitForFunctionToBeActive functionProvider (a_functionId a)
  = Fulfilled activeA ->
  fp_waitForFunctionToBeActive functionProvider (a_functionId b)
  = Fulfilled true ->
  fp_getFunctionLogs functionProvider (a_functionId a) = logsA ->
  fp_getFunctionLogs functionProvider (a_functionId b) = logsB ->
  logsA <> Pending -> logsB <> Pending ->
  tools w !! toObjectId (a_toolId b) = Some t ->
  matches (editFilter b) t = true ->
  let wB := settle functionProvider b w in
  let wA := settle functionProvider a wB in
  tools wA = tools wB
  /\ trace wA
     = trace wB ++ [EvWaitForFunctionToBeActive (a_functionId a);
                    EvGetFunctionLogs (a_functionId a);
                    conditionalUpdate a activeA (caught logsA);
                    EvDeleteFunction (Some (a_functionId a))].
Proof.
  intros HfA HfB Hid Hne HdA HdB HwA HwB HlA HlB HsA HsB Hlook Hm wB wA.
  destruct (settle_edit_matched b existingB t nameB true logsB w)
    as [HtB _]; try done.
  fold wB in HtB.
  destruct (settle_superseded a wB nameA activeA logsA) as (Ht & _ & Htr);
    try done.
  rewrite HfA, Hid, HtB, lookup_insert_eq. intros ? [= <-]. simpl.
  congruence.
Qed.

End ControllerFacts.

(** ** The scenarios *)
Section ScenarioFacts.
Import ToolDb ToolController Scenario.
Local Open Scope list_scope.

(** Under the default timeout a function that stays DEPLOYING is polled six
    times; the wait gives up after 195000ms, 15000ms past the timeout and
    less than the last delay. *)
Example waitForFunctionToBeActive_default_timeout :
  Provider.waitForFunctionToBeActive Provider.exampleConfig
    (Provider.scripted (Rejected Provider.notFound) (Fulfilled tt)
                       (fun _ => "DEPLOYING"))
    "fn-123" Provider.defaultMaxWaitTime Provider.probed
  = Some (Fulfilled false,
          let poll :=
            Provider.GetFunction
              (Provider.functionNameOf Provider.exampleConfig (Some "fn-123")) in
          {| Provider.now := 195000; Provider.gets := 7;
             Provider.effects :=
               [poll; Provider.SetTimeout 5000; poll; Provider.SetTimeout 10000;
                poll; Provider.SetTimeout 20000; poll; Provider.SetTimeout 40000;
                poll; Provider.SetTimeout 60000; poll; Provider.SetTimeout 60000] |}).
Proof. vm_compute. reflexivity. Qed.

(** C1, on the code: a create (function fn-a) is followed by an edit of the
    code (function fn-b).  The edit's deployment fails and commits first:
    the tool is in ERROR with the edit's logs.  When the create's deployment
    then activates, its conditional update still finds functionId fn-a on
    the record: it modifies the record, which ends up READY, and fn-a is
    not deleted. *)
Theorem supersession_fails_after_failed_edit :
  created.2 = Some creation
  /\ deployments (trace edited.1.2) = ["fn-a"; "fn-b"]
  /\ summary edited.1.2
     = Some (PENDING, Some "fn-a", Some "def handler(): return 2", None)
  /\ summary afterB
     = Some (ERROR, Some "fn-a", Some "def handler(): return 2",
             Some "Traceback (most recent call last)")
  /\ deletions (drop (length (trace edited.1.2)) (trace afterB)) = [Some "fn-b"]
  /\ Mongo.modifiedCount
       (editToolUnsafe toolKey (addFilter creation)
          (addUpdate true (Some "Traceback (most recent call last)"))
          (tools afterB)).1 = 1%nat
  /\ summary afterA
     = Some (READY, Some "fn-a", Some "def handler(): return 2",
             Some "Traceback (most recent call last)")
  /\ deletions (drop (length (trace afterB)) (trace afterA)) = [].
Proof. vm_compute. repeat split; reflexivity. Qed.

(** C2, on the code: [createFunction] fails with INTERNAL.  The request is
    answered 302 and the deploy promise is rejected; nothing handles the
    rejection, so the tool stays PENDING and no deletion is asked for. *)
Theorem addToolApi_deploy_failure_not_recovered :
  failedCreate.1.1
  = Fulfilled {| status := 302;
                 payload := PAdded toolKey ("/" ++ team ++ "/tools")%string |}
  /\ (exists a, failedCreate.2 = Some a
               /\ a_deployed a = Rejected Provider.internalError)
  /\ summary afterFailedCreate
     = Some (PENDING, Some "fn-a", Some "def handler(): return 1", None)
  /\ deletions (trace afterFailedCreate) = []
  /\ deployments (trace afterFailedCreate) = ["fn-a"]
  /\ last (trace afterFailedCreate)
     = Some (EvUnhandledRejection Provider.internalError).
Proof.
  vm_compute. repeat split; try reflexivity.
  eexists. split; reflexivity.
Qed.

(** C3, on the code: an edit that changes the description only.  The
    request and the stored tool carry the same four inputs.  With an
    environment object on both sides the edit counts as a change: the tool
    goes to PENDING, [deployFunction] is called, and on activation the
    functionId is replaced.  With no environment object no deploy is
    called and the functionId stays, but the tool is left PENDING. *)
Theorem editToolApi_description_only_edit :
  let data := handlerData "def handler(): return 1" in
  let stored := ToolDb.data (readyTool data) in
  let sent := b_data (body (describeRequest data)) in
  (environmentVariables sent = environmentVariables stored
   /\ code sent = code stored
   /\ requirements sent = requirements stored
   /\ b_runtime (body (describeRequest data)) = runtime (readyTool data))
  /\ summary (readyWorld data)
     = Some (READY, Some "fn-123", Some "def handler(): return 1", None)
  /\ (described data).2 = Some (redeployment data)
  /\ deployments (trace (described data).1.2) = ["fn-new"]
  /\ summary (described data).1.2
     = Some (PENDING, Some "fn-123", Some "def handler(): return 1", None)
  /\ summary (settleIn (google allActivate) (described data).2 (described data).1.2)
     = Some (READY, Some "fn-new", Some "def handler(): return 1", None)
  /\ (described plainData).2 = None
  /\ deployments (trace (described plainData).1.2) = []
  /\ summary (described plainData).1.2
     = Some (PENDING, Some "fn-123", Some "def handler(): return 1", None).
Proof. vm_compute. repeat split; reflexivity. Qed.

End ScenarioFacts.

(** ** Instances of the theorems at the scenarios *)

(** A first status answer of FAILED under the default timeout. *)
Lemma waitForFunctionToBeActive_short_circuit_witness :
  0 < Provider.defaultMaxWaitTime
  /\ Provider.waitForFunctionToBeActive Provider.exampleConfig
       (Provider.scripted (Rejected Provider.notFound) (Fulfilled tt)
                          (fun _ => "FAILED"))
       "fn-123" Provider.defaultMaxWaitTime Provider.probed
     = Some (Fulfilled false,
             {| Provider.now := 0; Provider.gets := 2;
                Provider.effects :=
                  [Provider.GetFunction
                     (Provider.functionNameOf Provider.exampleConfig
                                              (Some "fn-123"))] |}).
Proof.
  split; [reflexivity|].
  apply (proj1 (waitForFunctionToBeActive_short_circuit Provider.exampleConfig
                  (Provider.scripted (Rejected Provider.notFound) (Fulfilled tt)
                                     (fun _ => "FAILED"))
                  "fn-123" Provider.defaultMaxWaitTime Provider.probed
                  eq_refl) "FAILED" eq_refl).
  discriminate.
Defined.

(** A deploy of a function the backend does not know yet. *)
Lemma deployFunction_existence_check_witness :
  let backend :=
    Provider.scripted (Rejected Provider.notFound) (Fulfilled tt)
                      (fun _ => "ACTIVE") in
  let args :=
    {| Provider.id := "fn-123"; Provider.code := Some "def handler(): return 1";
       Provider.requirements := Some "requests"; Provider.runtime := None;
       Provider.environmentVariables := None |} in
  Provider.be_uploadBuffer backend "functions/fn-123/function.zip" = Fulfilled tt
  /\ (Provider.deployFunction Provider.exampleConfig backend
        (default EmptyString) ["functions-framework"] args Provider.idle).1
     = Fulfilled (Provider.functionNameOf Provider.exampleConfig (Some "fn-123")).
Proof.
  intros backend args. split; [reflexivity|].
  apply (proj1 (deployFunction_existence_check Provider.exampleConfig backend
                  (default EmptyString) ["functions-framework"] args
                  Provider.idle eq_refl)
               Provider.notFound eq_refl eq_refl).
Defined.


(** Deleting the READY tool of the examples. *)
Lemma deleteToolApi_deletes_function_first_witness :
  let data := Scenario.plainData in
  let r := ToolController.deleteToolApi (Scenario.google Scenario.allActivate)
             Scenario.deleteRequest (Scenario.readyWorld data) in
  String.length Scenario.toolKey = 24%nat
  /\ ToolController.trace r.2
     = [ToolController.EvDeleteFunction (Some "fn-123");
        ToolController.EvDeleteToolById Scenario.toolKey;
        ToolController.EvRemoveAgentsTool Scenario.toolKey]
  /\ ToolController.tools r.2 !! Scenario.toolKey = None.
Proof.
  intros data r. split; [reflexivity|].
  destruct (proj1 (deleteToolApi_deletes_function_first
                     (Scenario.google Scenario.allActivate)
                     Scenario.deleteRequest (Scenario.readyWorld data)
                     Scenario.toolKey (Scenario.readyTool data)
                     eq_refl eq_refl eq_refl eq_refl) tt eq_refl)
    as (_ & Htrace & Htools & _).
  split; [exact Htrace|].
  fold r in Htools. rewrite Htools. apply lookup_delete_eq.
Defined.

(** The create request of the first scenario. *)
Lemma addToolApi_persisted_state_witness :
  Scenario.created.1.1
  = Fulfilled {| ToolController.status := 302;
                 ToolController.payload :=
                   ToolController.PAdded Scenario.toolKey
                     "/65f0c0ffee0000000000aaaa/tools" |}
  /\ exists tool,
      ToolController.tools Scenario.created.1.2 !! Scenario.toolKey = Some tool
      /\ ToolDb.state tool = ToolDb.PENDING
      /\ ToolDb.functionId tool = Some "fn-a".
Proof.
  split; [reflexivity|].
  destruct (addToolApi_persisted_state Scenario.noFilename Scenario.acceptAll
              Scenario.snake Scenario.runtimes
              (Scenario.google Scenario.onlyAActivates)
              (Scenario.request
                 (Scenario.toolBody ToolDb.FUNCTION_TOOL None
                    (Scenario.handlerData "def handler(): return 1") "adds one"))
              (Scenario.draws "fn-a") Scenario.emptyWorld
              {| ToolController.status := 302;
                 ToolController.payload :=
                   ToolController.PAdded Scenario.toolKey
                     "/65f0c0ffee0000000000aaaa/tools" |}
              eq_refl eq_refl)
    as (added & tool & Hadded & Hlook & _ & _ & Hfn & _).
  injection Hadded as <-.
  destruct (Hfn eq_refl) as (Hst & Hid & _).
  exists tool. split; [exact Hlook|]. split; assumption.
Defined.

(** * Further properties *)

(** ** The provider *)
Section ProviderMore.
Import Provider Polling.
Variable cfg : Config.
Variable backend : Backend.
Variable WrapToolCode : option string -> string.
Variable StandardRequirements : list string.

Local Open Scope list_scope.

Local Abbreviation nameOf functionId := (functionNameOf cfg (Some functionId)).
Local Abbreviation latency functionId k :=
  (Z.of_N (be_latency backend (nameOf functionId) k)).

Lemma sleptBefore_nonneg n : 0 <= sleptBefore n.
Proof.
  induction n as [|n IH]; simpl; [done|].
  pose proof (backoff_bounds n). lia.
Qed.


Lemma timeToPoll_nonneg functionId k : forall i g, 0 <= timeToPoll cfg backend functionId i g k.
Proof.
  induction k as [|k IH]; intros i g; simpl; [done|].
  pose proof (backoff_bounds i). specialize (IH (S i) (S g)). lia.
Qed.

(** What a run of the loop started with the [i]-th delay pending tells about
    the number of status requests, about a result of false, and about a
    result that never comes. *)
Lemma waitLoop_accounting functionId startTime maxWaitTime fuel :
  forall i s r s',
    waitLoop cfg backend fuel functionId startTime maxWaitTime (backoff i) s
    = Some (r, s') ->
    ((gets s < gets s')%nat ->
       (now s - startTime)
       + (sleptBefore (i + (gets s' - gets s - 1)) - sleptBefore i)
       < maxWaitTime)
    /\ (r = Fulfilled false ->
        maxWaitTime <= now s' - startTime
        \/ ((gets s < gets s')%nat
            /\ exists st, observed cfg backend functionId (gets s' - 1) = Some st
                          /\ st <> "ACTIVE" /\ st <> "DEPLOYING"))
    /\ (r = Pending ->
        (gets s < gets s')%nat
        /\ observed cfg backend functionId (gets s' - 1) = None)
    /\ now s <= now s'.
Proof.
  induction fuel as [|fuel IH]; intros i s r s' Hrun; [done|].
  cbn [waitLoop] in Hrun.
  destruct (Z.ltb_spec (now s - startTime) maxWaitTime) as [Hlt|Hge].
  2:{ injection Hrun as <- <-. split; [lia|]. split; [by left|].
      split; [done|lia]. }
  rewrite getFunctionState_spec in Hrun.
  assert (Hone : forall r1,
    (r1 = Fulfilled false ->
     exists st, observed cfg backend functionId (gets s) = Some st
                /\ st <> "ACTIVE" /\ st <> "DEPLOYING") ->
    (r1 = Pending -> observed cfg backend functionId (gets s) = None) ->
    Some (r1, {| now := now s + latency functionId (gets s); gets := S (gets s);
                 effects := effects s ++ [GetFunction (nameOf functionId)] |})
    = Some (r, s') ->
    ((gets s < gets s')%nat ->
       (now s - startTime)
       + (sleptBefore (i + (gets s' - gets s - 1)) - sleptBefore i)
       < maxWaitTime)
    /\ (r = Fulfilled false ->
        maxWaitTime <= now s' - startTime
        \/ ((gets s < gets s')%nat
            /\ exists st, observed cfg backend functionId (gets s' - 1) = Some st
                          /\ st <> "ACTIVE" /\ st <> "DEPLOYING"))
    /\ (r = Pending ->
        (gets s < gets s')%nat
        /\ observed cfg backend functionId (gets s' - 1) = None)
    /\ now s <= now s').
  { intros r1 Hf Hp Heq. injection Heq as <- <-. simpl.
    replace (gets s - 0)%nat with (gets s) by lia.
    replace (S (gets s) - gets s - 1)%nat with 0%nat by lia.
    rewrite Nat.add_0_r.
    split; [lia|]. split; [intros Hr; right; split; [lia|by apply Hf]|].
    split; [intros Hr; split; [lia|by apply Hp]|]. lia. }
  destruct (observed cfg backend functionId (gets s)) as [st|] eqn:Hobs.
  2:{ apply (Hone Pending); done. }
  destruct (String.eqb_spec st "ACTIVE") as [->|Hna].
  { apply (Hone (Fulfilled true)); done. }
  destruct (String.eqb_spec st "DEPLOYING") as [->|Hnd]; simpl in Hrun.
  2:{ apply (Hone (Fulfilled false)); [by exists st|done|done]. }
  clear Hone.
  rewrite backoff_double in Hrun.
  pose proof Hrun as Hspec.
  apply waitLoop_spec in Hspec as (_ & _ & Hgets & _ & Hnone & _).
  apply IH in Hrun as (Hcount & Hfalse & Hpend & Hnow).
  simpl in Hgets, Hnone, Hcount, Hfalse, Hpend, Hnow.
  pose proof (backoff_bounds i) as Hb.
  split.
  { intros _. destruct (decide (gets s' = S (gets s))) as [Heq|Hne].
    - rewrite Heq. replace (S (gets s) - gets s - 1)%nat with 0%nat by lia.
      rewrite Nat.add_0_r. lia.
    - specialize (Hcount ltac:(lia)).
      replace (i + (gets s' - gets s - 1))%nat
        with (S i + (gets s' - S (gets s) - 1))%nat by lia.
      cbn [sleptBefore Nat.add]. lia. }
  split.
  { intros Hr. destruct (Hfalse Hr) as [?|[? ?]]; [by left|right].
    split; [lia|done]. }
  split.
  { intros Hr. destruct (Hpend Hr) as [? ?]. split; [lia|done]. }
  lia.
Qed.

(** X1. A wait whose timeout is zero or negative answers false at once: no
    status request, no sleep, the clock untouched. *)
Theorem waitForFunctionToBeActive_no_time functionId maxWaitTime s :
  maxWaitTime <= 0 ->
  waitForFunctionToBeActive cfg backend functionId maxWaitTime s
  = Some (Fulfilled false, s).
Proof.
  intros Hmax. unfold waitForFunctionToBeActive, fuelFor. cbn [waitLoop].
  by destruct (Z.ltb_spec (now s - now s) maxWaitTime) as [?|_]; [lia|].
Qed.


(** X3. The wait never rejects.  It answers false only when the timeout has
    run out or the last status seen was neither ACTIVE nor DEPLOYING (the
    string ERROR included), and it stays pending only when its last status
    request never completes. *)
Theorem waitForFunctionToBeActive_false_means functionId maxWaitTime s :
  exists r s',
    waitForFunctionToBeActive cfg backend functionId maxWaitTime s = Some (r, s')
    /\ (forall e, r <> Rejected e)
    /\ (r = Fulfilled false ->
        maxWaitTime <= now s' - now s
        \/ ((gets s < gets s')%nat
            /\ exists st, observed cfg backend functionId (gets s' - 1) = Some st
                          /\ st <> "ACTIVE" /\ st <> "DEPLOYING"))
    /\ (r = Pending ->
        (gets s < gets s')%nat
        /\ observed cfg backend functionId (gets s' - 1) = None).
Proof.
  destruct (waitForFunctionToBeActive_total cfg backend functionId maxWaitTime s)
    as [[r s'] Hrun].
  exists r, s'. split; [done|].
  unfold waitForFunctionToBeActive in Hrun.
  pose proof Hrun as Hspec.
  apply waitLoop_spec in Hspec as (_ & _ & _ & _ & _ & _ & _ & _ & Hrej).
  change 5000 with (backoff 0) in Hrun.
  apply waitLoop_accounting in Hrun as (_ & Hfalse & Hpend & _).
  done.
Qed.

Lemma timeToPoll_lower functionId k :
  forall i g, 5000 * Z.of_nat k <= timeToPoll cfg backend functionId i g k.
Proof.
  induction k as [|k IH]; intros i g; [done|].
  cbn [timeToPoll]. pose proof (backoff_bounds i). specialize (IH (S i) (S g)).
  lia.
Qed.

Lemma waitLoop_activates functionId startTime maxWaitTime k :
  forall fuel i s,
    (k < fuel)%nat ->
    (forall j, (j < k)%nat ->
       observed cfg backend functionId (gets s + j) = Some "DEPLOYING") ->
    observed cfg backend functionId (gets s + k) = Some "ACTIVE" ->
    (now s - startTime) + timeToPoll cfg backend functionId i (gets s) k
    < maxWaitTime ->
    exists s' new,
      waitLoop cfg backend fuel functionId startTime maxWaitTime (backoff i) s
      = Some (Fulfilled true, s')
      /\ gets s' = (gets s + S k)%nat
      /\ now s' = now s + timeToPoll cfg backend functionId i (gets s) k
                  + latency functionId (gets s + k)
      /\ effects s' = effects s ++ new
      /\ delaysOf new = backoff <$> seq i k.
Proof.
  induction k as [|k IH]; intros fuel i s Hfuel Hdep Hact Htime.
  - destruct fuel as [|fuel]; [lia|]. cbn [waitLoop timeToPoll] in *.
    destruct (Z.ltb_spec (now s - startTime) maxWaitTime) as [_|?]; [|lia].
    rewrite getFunctionState_spec. rewrite Nat.add_0_r in Hact. rewrite Hact.
    simpl. eexists _, [GetFunction (nameOf functionId)].
    split; [done|]. simpl. rewrite Nat.add_0_r. repeat split; try done; lia.
  - destruct fuel as [|fuel]; [lia|]. cbn [waitLoop timeToPoll] in *.
    pose proof (timeToPoll_nonneg functionId k (S i) (S (gets s))).
    pose proof (backoff_bounds i).
    destruct (Z.ltb_spec (now s - startTime) maxWaitTime) as [_|?]; [|lia].
    rewrite getFunctionState_spec.
    pose proof (Hdep 0%nat ltac:(lia)) as Hfirst.
    rewrite Nat.add_0_r in Hfirst. rewrite Hfirst. simpl.
    rewrite backoff_double.
    destruct (IH fuel (S i)
                {| now := now s + latency functionId (gets s) + backoff i;
                   gets := S (gets s);
                   effects := (effects s ++ [GetFunction (nameOf functionId)])
                              ++ [SetTimeout (backoff i)] |})
      as (s' & new & Hrun & Hgets & Hnow & Heff & Hdel); simpl.
    + lia.
    + intros j Hj. replace (S (gets s + j)) with (gets s + S j)%nat by lia.
      apply Hdep. lia.
    + by replace (S (gets s + k)) with (gets s + S k)%nat by lia.
    + lia.
    + simpl in Hgets, Hnow, Heff.
      exists s', ([GetFunction (nameOf functionId); SetTimeout (backoff i)] ++ new).
      split; [done|]. split; [lia|].
      split; [replace (gets s + S k)%nat with (S (gets s + k)) by lia; lia|].
      split; [by rewrite Heff, <- !app_assoc|]. simpl. by rewrite Hdel.
Qed.

(** X4. A function that is seen DEPLOYING [k] times and then ACTIVE, with
    the [k] status requests and the [k] sleeps 5000, 10000, ... fitting in
    the timeout, makes the wait answer true at its [k+1]-th status request,
    after exactly those [k] sleeps. *)
Theorem waitForFunctionToBeActive_activates functionId maxWaitTime s k :
  (forall j, (j < k)%nat ->
     observed cfg backend functionId (gets s + j) = Some "DEPLOYING") ->
  observed cfg backend functionId (gets s + k) = Some "ACTIVE" ->
  timeToPoll cfg backend functionId 0 (gets s) k < maxWaitTime ->
  exists s' new,
    waitForFunctionToBeActive cfg backend functionId maxWaitTime s
    = Some (Fulfilled true, s')
    /\ gets s' = (gets s + S k)%nat
    /\ now s' = now s + timeToPoll cfg backend functionId 0 (gets s) k
                + latency functionId (gets s + k)
    /\ effects s' = effects s ++ new
    /\ delaysOf new = backoff <$> seq 0 k.
Proof.
  intros Hdep Hact Htime. unfold waitForFunctionToBeActive.
  change 5000 with (backoff 0).
  apply waitLoop_activates; try done; [|lia].
  pose proof (timeToPoll_lower functionId k 0%nat (gets s)) as Hlow.
  unfold fuelFor.
  assert (Z.of_nat k <= maxWaitTime / 5000).
  { apply Z.div_le_lower_bound; lia. }
  lia.
Qed.

(** [getFunctionState] never rejects: it issues one status request and
    answers the state it got, or the string ERROR when the request failed. *)
Theorem getFunctionState_never_rejects functionId s :
  (forall e, (getFunctionState cfg backend functionId s).1 <> Rejected e)
  /\ (forall e,
        be_getFunction backend (nameOf functionId) (gets s) = Rejected e ->
        (getFunctionState cfg backend functionId s).1 = Fulfilled "ERROR")
  /\ (forall st,
        be_getFunction backend (nameOf functionId) (gets s) = Fulfilled st ->
        (getFunctionState cfg backend functionId s).1 = Fulfilled st)
  /\ effects (getFunctionState cfg backend functionId s).2
     = effects s ++ [GetFunction (nameOf functionId)].
Proof.
  rewrite getFunctionState_spec. unfold observed.
  destruct (be_getFunction backend (nameOf functionId) (gets s)) as [st|e|];
    simpl; repeat split; try done; congruence.
Qed.

Local Abbreviation deploy :=
  (deployFunction cfg backend WrapToolCode StandardRequirements).

(** X6. When the upload of the archive does not succeed the deploy ends with
    the upload's failure, and the backend is not asked anything: no
    existence probe, no create, no update. *)
Theorem deployFunction_upload_failure args s :
  let key := (functionPath args ++ "/function.zip")%string in
  (forall u, be_uploadBuffer backend key <> Fulfilled u) ->
  (deploy args s).1
  = andThen (be_uploadBuffer backend key) (nameOf (id args))
  /\ effects (deploy args s).2
     = effects s ++ [UploadBuffer key
                       (zipBuffer WrapToolCode StandardRequirements args)
                       "application/zip"]
  /\ gets (deploy args s).2 = gets s.
Proof.
  intros key Hup.
  unfold deployFunction, bind, await, try_catch, getFunction, ret, throw.
  fold key. destruct (be_uploadBuffer backend key) as [u|e|]; simpl; [|done|done].
  by destruct (Hup u).
Qed.

(** X7. A deploy that succeeds answers the fully qualified name of
    function-<id>, after exactly three calls: the upload, the existence
    probe of that name, and one create or update.  The request names the
    uploaded object in the configured bucket, and carries the environment
    variables, in the build and in the service configuration alike, exactly
    when there is at least one. *)
Theorem deployFunction_fulfilled args s n :
  (deploy args s).1 = Fulfilled n ->
  let key := (functionPath args ++ "/function.zip")%string in
  let env := default ∅ (environmentVariables args) in
  n = nameOf (id args)
  /\ exists request,
      (effects (deploy args s).2
       = effects s ++ [UploadBuffer key
                         (zipBuffer WrapToolCode StandardRequirements args)
                         "application/zip";
                       GetFunction n; CreateFunction request]
       \/ effects (deploy args s).2
          = effects s ++ [UploadBuffer key
                            (zipBuffer WrapToolCode StandardRequirements args)
                            "application/zip";
                          GetFunction n; UpdateFunction request])
      /\ r_name request = n
      /\ r_object request = key
      /\ r_bucket request = bucket cfg
      /\ r_buildEnvironmentVariables request
         = r_serviceEnvironmentVariables request
      /\ r_buildEnvironmentVariables request
         = (if decide (env = ∅) then None else Some env).
Proof.
  intros Hok key env.
  assert (Henv : nonEmptyEnv env = (if decide (env = ∅) then None else Some env)).
  { unfold nonEmptyEnv. destruct (decide (env = ∅)) as [->|Hne].
    - by rewrite map_size_empty.
    - destruct (decide (0 < size env)%nat) as [|Hz]; [done|].
      destruct Hne. apply map_size_empty_iff. lia. }
  revert Hok.
  unfold deployFunction, bind, await, try_catch, getFunction, ret, throw.
  fold key. destruct (be_uploadBuffer backend key) as [u|e|]; simpl; [|done|done].
  destruct (be_getFunction backend _ _) as [st|e|]; simpl; [| |done].
  - destruct (be_updateFunction backend _) as [u'|e|]; simpl; [|done|done].
    intros [= <-]. split; [done|].
    exists (deployRequest cfg args). rewrite <- !app_assoc.
    split; [by right|]. by repeat split.
  - destruct (decide (err_code e = Some 5)); simpl; [|done].
    destruct (be_createFunction backend _) as [u'|e'|]; simpl; [|done|done].
    intros [= <-]. split; [done|].
    exists (withLocation (deployRequest cfg args) (locationOf cfg)).
    rewrite <- !app_assoc. split; [by left|]. by repeat split.
Qed.

(** X8. The name a successful deploy answers is the name [deleteFunction]
    deletes and [getFunctionState] asks about for the same id;
    [deleteFunction] makes that one call and hands its outcome, failure
    included, to the caller. *)
Theorem deployFunction_name_is_shared args s n s0 :
  (deploy args s).1 = Fulfilled n ->
  deleteFunction cfg backend (Some (id args)) s0
  = (be_deleteFunction backend n, emit (DeleteFunction n) s0)
  /\ effects (getFunctionState cfg backend (id args) s0).2
     = effects s0 ++ [GetFunction n].
Proof.
  intros Hok.
  assert (Hn : n = nameOf (id args)).
  { revert Hok.
    unfold deployFunction, bind, await, try_catch, getFunction, ret, throw.
    destruct (be_uploadBuffer backend _) as [u|e|]; simpl; [|done|done].
    destruct (be_getFunction backend _ _) as [st|e|]; simpl; [| |done].
    - destruct (be_updateFunction backend _); simpl; [|done|done]. congruence.
    - destruct (decide (err_code e = Some 5)); simpl; [|done].
      destruct (be_createFunction backend _); simpl; [|done|done]. congruence. }
  subst n. split.
  - unfold deleteFunction, try_catch, await, throw.
    by destruct (be_deleteFunction backend _).
  - by rewrite getFunctionState_spec.
Qed.

End ProviderMore.

(** ** db/asset.ts *)
Section AssetMore.
Context {Asset PartialAsset : Type} `{EqDecision Asset}.
Variable set_fields : PartialAsset -> Asset -> Asset.
Implicit Types (c : gmap string Asset).

(** X9. An asset that was added is what [getAssetById] finds under the
    inserted id, and every other id is found as before. *)
Theorem addAsset_then_getAssetById insertedId (asset : Asset) c :
  (AssetDb.addAsset insertedId asset c).1 = insertedId
  /\ AssetDb.getAssetById insertedId (AssetDb.addAsset insertedId asset c).2
     = Some asset
  /\ (forall other, other <> insertedId ->
        AssetDb.getAssetById other (AssetDb.addAsset insertedId asset c).2
        = AssetDb.getAssetById other c).
Proof.
  unfold AssetDb.addAsset, AssetDb.getAssetById, Mongo.findOne, Mongo.insertOne,
    toObjectId. simpl.
  split; [done|]. split; [by rewrite lookup_insert_eq|].
  intros other Hne. by rewrite lookup_insert_ne.
Qed.

(** X10. [deleteAssetById] answers whether there was an asset with the id;
    afterwards there is none, every other asset is found as before, and
    deleting an id that is absent changes nothing. *)
Theorem deleteAssetById_removes_one assetId c :
  ((AssetDb.deleteAssetById assetId c).1 = true
   <-> is_Some (AssetDb.getAssetById assetId c))
  /\ AssetDb.getAssetById assetId (AssetDb.deleteAssetById assetId c).2 = None
  /\ (forall other, other <> assetId ->
        AssetDb.getAssetById other (AssetDb.deleteAssetById assetId c).2
        = AssetDb.getAssetById other c)
  /\ (AssetDb.getAssetById assetId c = None ->
      AssetDb.deleteAssetById assetId c = (false, c)).
Proof.
  unfold AssetDb.deleteAssetById, AssetDb.getAssetById, Mongo.deleteOne,
    Mongo.findOne, toObjectId.
  destruct (c !! assetId) as [a|] eqn:Ha; simpl.
  - split; [by split; eauto|]. rewrite lookup_delete_eq. split; [done|].
    split; [|done]. intros other Hne. by rewrite lookup_delete_ne.
  - rewrite Ha. split; [split; [done|by intros [? ?]]|]. split; [done|].
    by split.
Qed.

(** X11. [updateAsset] changes the one document it selects, to the document
    with the given fields set; it never adds or removes a document, and
    every other asset is found as before. *)
Theorem updateAsset_sets_fields assetId (updateData : PartialAsset) c :
  AssetDb.getAssetById assetId (AssetDb.updateAsset set_fields assetId updateData c).2
  = set_fields updateData <$> AssetDb.getAssetById assetId c
  /\ (forall other, other <> assetId ->
        AssetDb.getAssetById other
          (AssetDb.updateAsset set_fields assetId updateData c).2
        = AssetDb.getAssetById other c)
  /\ dom (AssetDb.updateAsset set_fields assetId updateData c).2 = dom c.
Proof.
  unfold AssetDb.updateAsset, AssetDb.getAssetById, Mongo.updateOne,
    Mongo.findOne, toObjectId.
  destruct (c !! assetId) as [a|] eqn:Ha; simpl.
  - rewrite lookup_insert_eq. split; [done|]. split.
    + intros other Hne. by rewrite lookup_insert_ne.
    + rewrite dom_insert_L. apply subseteq_union_1_L, singleton_subseteq_l.
      by apply elem_of_dom_2 in Ha.
  - rewrite Ha. by repeat split.
Qed.

(** X12. Adding an asset under an unused id and deleting it again gives
    back the collection, and the deletion answers true. *)
Theorem addAsset_then_deleteAssetById insertedId (asset : Asset) c :
  AssetDb.getAssetById insertedId c = None ->
  AssetDb.deleteAssetById insertedId (AssetDb.addAsset insertedId asset c).2
  = (true, c).
Proof.
  unfold AssetDb.deleteAssetById, AssetDb.addAsset, AssetDb.getAssetById,
    Mongo.deleteOne, Mongo.findOne, Mongo.insertOne, toObjectId. simpl.
  destruct (c !! insertedId) as [a|] eqn:Ha; [done|]. intros _.
  rewrite lookup_insert_eq. simpl. by rewrite delete_insert_id.
Qed.

End AssetMore.

(** ** The tool controller, further *)
Section ControllerMore.
Import ToolDb ToolController.
Context {Asset : Type}.
Variable assetFilename : Asset -> string.
Variable validateTool : Body -> option string.
Variable toSnakeCase : string -> string.
Variable runtimeValues : list string.
Variable functionProvider : FunctionProvider.

Local Open Scope list_scope.

Implicit Types (w : World (Asset := Asset)) (a : Attempt) (t : Tool).

(** An update leaves the collection alone or replaces the selected
    document. *)
Lemma updateOne_shape {Doc} `{EqDecision Doc} _id (filter : Doc -> bool)
    (set : Doc -> Doc) (c : gmap string Doc) :
  (Mongo.findOne _id filter c = None
   /\ Mongo.updateOne _id filter set c
      = ({| Mongo.matchedCount := 0; Mongo.modifiedCount := 0 |}, c))
  \/ (exists d, c !! _id = Some d /\ filter d = true
                /\ Mongo.updateOne _id filter set c
                   = ({| Mongo.matchedCount := 1;
                         Mongo.modifiedCount := if decide (set d = d) then 0 else 1 |},
                      <[_id := set d]> c)).
Proof.
  unfold Mongo.updateOne, Mongo.findOne.
  destruct (c !! _id) as [d|] eqn:Hd; [|by left].
  destruct (filter d) eqn:Hf; [|by left]. right. by exists d.
Qed.


(** X14. Whatever a create request is answered, it leaves the agents and
    the assets alone and touches no tool but the one stored under the
    inserted id; without an acknowledged insert the tools are as before.
    It only adds to the trace. *)
Theorem addToolApi_frame req nd w :
  let r := addToolApi assetFilename validateTool toSnakeCase runtimeValues
                      functionProvider req nd w in
  agents r.1.2 = agents w
  /\ assets r.1.2 = assets w
  /\ (forall k, insertedId nd <> Some k -> tools r.1.2 !! k = tools w !! k)
  /\ (insertedId nd = None -> tools r.1.2 = tools w)
  /\ exists new, trace r.1.2 = trace w ++ new.
Proof.
  intros r. subst r. unfold addToolApi.
  destruct (validateTool (body req)).
  { repeat split; try done. exists []. by rewrite app_nil_r. }
  destruct (invalidDatasource (body req) nd).
  { repeat split; try done. exists []. by rewrite app_nil_r. }
  destruct (invalidRuntime runtimeValues (body req)).
  { repeat split; try done. exists []. by rewrite app_nil_r. }
  unfold addTool, Mongo.insertOne. destruct (insertedId nd) as [added|]; cbn zeta.
  2:{ repeat split; try done. by eexists. }
  destruct (bool_decide (b_type (body req) = FUNCTION_TOOL)).
  2:{ simpl. repeat split; try done.
      - intros k Hk. rewrite lookup_insert_ne; [done|congruence].
      - by eexists. }
  destruct (fp_deployFunction functionProvider _) as [deployed|e].
  { simpl. repeat split; try done.
    - intros k Hk. rewrite lookup_insert_ne; [done|congruence].
    - eexists. by rewrite <- app_assoc. }
  unfold editTool, toObjectId.
  match goal with
  | |- context [Mongo.updateOne ?i ?f ?u ?c] =>
      destruct (updateOne_shape i f u c) as [[_ ->]|(d & _ & _ & ->)]
  end; simpl.
  - repeat split; try done.
    + intros k Hk. rewrite lookup_insert_ne; [done|congruence].
    + eexists. by rewrite <- !app_assoc.
  - repeat split; try done.
    + intros k Hk. rewrite !lookup_insert_ne; [done|congruence..].
    + eexists. by rewrite <- !app_assoc.
Qed.

(** X15. When calling [deployFunction] throws at the call, the [catch]
    block of the create request runs: the function's deletion is asked for,
    the inserted tool is set to ERROR, the request is answered 400 and no
    attempt is left in flight. *)
Theorem addToolApi_deploy_throws req nd w added e :
  validateTool (body req) = None ->
  invalidDatasource (body req) nd = false ->
  invalidRuntime runtimeValues (body req) = false ->
  insertedId nd = Some added ->
  b_type (body req) = FUNCTION_TOOL ->
  fp_deployFunction functionProvider
    (deployArgs (toolDataOf toSnakeCase (body req)) (uuidv4 nd)
                (b_runtime (body req))) = Throw e ->
  let r := addToolApi assetFilename validateTool toSnakeCase runtimeValues
                      functionProvider req nd w in
  r.1.1 = respond 400 (PError "Error deploying or testing function")
  /\ r.2 = None
  /\ deployments (drop (length (trace w)) (trace r.1.2)) = [uuidv4 nd]
  /\ deletions (drop (length (trace w)) (trace r.1.2)) = [Some (uuidv4 nd)]
  /\ exists t, tools r.1.2 !! added = Some t
               /\ state t = ERROR /\ functionId t = Some (uuidv4 nd).
Proof.
  intros Hval Hds Hrt Hins Htype Hthrow r. subst r.
  unfold addToolApi. rewrite Hval, Hds, Hrt, Hins. unfold addTool.
  cbn zeta. rewrite Htype, bool_decide_eq_true_2 by done. rewrite Hthrow.
  unfold editTool, Mongo.insertOne, toObjectId. cbn [tools record withTools].
  erewrite updateOne_matched; [|apply lookup_insert_eq|].
  2:{ unfold matches, byTeam, requires, toObjectId. simpl.
      by rewrite bool_decide_eq_true_2. }
  simpl. rewrite <- !app_assoc, drop_app_length. simpl.
  split; [done|]. split; [done|]. split; [done|]. split; [done|].
  eexists. split; [apply lookup_insert_eq|]. done.
Qed.

(** X16. The create flow end to end.  A create request that left an
    attempt in flight, whose deploy was accepted: when the wait answers
    true the tool becomes READY and keeps the functionId it was created
    with, nothing is deleted; when it answers false the tool becomes ERROR
    with the logs that were captured and the function is deleted.  In both
    cases the last thing done is to emit the notification. *)
Theorem addToolApi_then_settle req nd w a name isActive logs :
  let r := addToolApi assetFilename validateTool toSnakeCase runtimeValues
                      functionProvider req nd w in
  r.2 = Some a ->
  a_deployed a = Fulfilled name ->
  fp_waitForFunctionToBeActive functionProvider (a_functionId a)
  = Fulfilled isActive ->
  fp_getFunctionLogs functionProvider (a_functionId a) = logs ->
  logs <> Pending ->
  let w' := settle functionProvider a r.1.2 in
  a_functionId a = uuidv4 nd
  /\ (exists t',
        tools w' !! a_toolId a = Some t'
        /\ state t' = (if isActive then READY else ERROR)
        /\ functionId t' = Some (uuidv4 nd)
        /\ functionLogs t'
           = (if negb isActive && truthy (caught logs) then caught logs else None))
  /\ deletions (drop (length (trace r.1.2)) (trace w'))
     = (if isActive then [] else [Some (uuidv4 nd)])
  /\ last (trace w')
     = Some (EvEmit (resourceSlug req)
               (deploymentNotification (matchingOrgId req) (resourceSlug req)
                  (a_toolId a) (b_name (body req)) isActive)).
Proof.
  intros r Hatt Hdep Hwait Hlogs Hset w'. subst w' r. revert Hatt.
  unfold addToolApi, respond.
  destruct (validateTool (body req)); [done|].
  destruct (invalidDatasource _ _); [done|].
  destruct (invalidRuntime _ _); [done|].
  unfold addTool, Mongo.insertOne. destruct (insertedId nd) as [added|]; [|done].
  cbn zeta.
  case_bool_decide as Htype; [|done].
  destruct (fp_deployFunction functionProvider _) as [deployed|e'];
    [|by destruct (editTool _ _ _ _)].
  intros [= <-]. simpl in Hdep, Hwait, Hlogs.
  cbn [fst snd].
  rewrite (settle_reconciles functionProvider _ _ name isActive logs) by done.
  cbn [a_flow a_functionId a_toolId a_request]. cbn zeta.
  unfold reconcileAdd, editToolUnsafe, toObjectId.
  cbn [tools record withTools a_functionId a_toolId a_request].
  erewrite updateOne_matched; [|apply lookup_insert_eq|].
  2:{ unfold matches, addFilter, requires, toObjectId. simpl.
      rewrite Htype. by rewrite !bool_decide_eq_true_2. }
  match goal with
  | |- context [decide (?x = ?y)] => destruct (decide (x = y)) as [Heq|_]
  end.
  { apply (f_equal state) in Heq. by destruct isActive. }
  cbn [Mongo.modifiedCount Nat.eqb]. split; [done|].
  destruct isActive; simpl.
  - split.
    { eexists. split; [apply lookup_insert_eq|]. done. }
    split; [|by rewrite last_snoc].
    by rewrite <- !app_assoc, !length_app, drop_app_add.
  - split.
    { eexists. split; [apply lookup_insert_eq|]. simpl.
      repeat split. by destruct (truthy (caught logs)), (caught logs). }
    split; [|by rewrite last_snoc].
    by rewrite <- !app_assoc, !length_app, drop_app_add.
Qed.

(** *** The callback of a resolved attempt *)

(** Every way a resolved attempt can end: its conditional update changes
    nothing and it deletes its own function, or it replaces the selected
    document by a different one and notifies. *)
Lemma settle_resolved a w name isActive logs :
  a_deployed a = Fulfilled name ->
  fp_waitForFunctionToBeActive functionProvider (a_functionId a)
  = Fulfilled isActive ->
  fp_getFunctionLogs functionProvider (a_functionId a) = logs ->
  logs <> Pending ->
  let w' := settle functionProvider a w in
  let key := toObjectId (a_toolId a) in
  let asked :=
    [EvWaitForFunctionToBeActive (a_functionId a);
     EvGetFunctionLogs (a_functionId a);
     conditionalUpdate a isActive (caught logs)] in
  agents w' = agents w
  /\ assets w' = assets w
  /\ ((tools w' = tools w
       /\ trace w' = trace w ++ asked ++ [EvDeleteFunction (Some (a_functionId a))]
       /\ forall t, tools w !! key = Some t ->
            match a_flow a with
            | AddFlow =>
                matches (addFilter a) t = true ->
                applyPatch (addUpdate isActive (caught logs)) t = t
            | EditFlow _ => matches (editFilter a) t = false
            end)
      \/ (exists t t' rest,
            tools w !! key = Some t
            /\ t' <> t
            /\ match a_flow a with
               | AddFlow =>
                   matches (addFilter a) t = true
                   /\ t' = applyPatch (addUpdate isActive (caught logs)) t
                   /\ deletions rest
                      = (if isActive then [] else [Some (a_functionId a)])
               | EditFlow existingTool =>
                   matches (editFilter a) t = true
                   /\ t' = applyPatch (editUpdate a isActive (caught logs)) t
                   /\ deletions rest
                      = (if isActive
                         then (if truthy (functionId existingTool)
                               then [functionId existingTool] else [])
                         else [Some (a_functionId a)])
               end
            /\ tools w' = <[key := t']> (tools w)
            /\ trace w' = trace w ++ asked ++ rest)).
Proof.
  intros Hdep Hwait Hlogs Hset w' key asked. subst w' key asked.
  rewrite (settle_reconciles functionProvider a w name isActive logs) by done.
  unfold conditionalUpdate. cbn zeta.
  destruct (a_flow a) as [|existingTool].
  - unfold reconcileAdd, editToolUnsafe. cbn [tools record].
    match goal with
    | |- context [Mongo.updateOne ?i ?f ?u ?c] =>
        destruct (updateOne_shape i f u c) as [[Hnone ->]|(d & Hd & Hm & ->)]
    end.
    + simpl. split; [done|]. split; [done|]. left.
      split; [done|]. split; [by rewrite <- !app_assoc|].
      intros t Ht Hm. unfold Mongo.findOne in Hnone. rewrite Ht, Hm in Hnone.
      done.
    + destruct (decide (applyPatch (addUpdate isActive (caught logs)) d = d))
        as [Heq|Hne]; cbn [Mongo.modifiedCount Nat.eqb].
      * simpl. split; [done|]. split; [done|]. left.
        split; [by rewrite Heq, insert_id|]. split; [by rewrite <- !app_assoc|].
        intros t Ht _. by simplify_eq.
      * split; [by destruct isActive|]. split; [by destruct isActive|]. right.
        set (n := deploymentNotification _ _ _ _ _).
        exists d, (applyPatch (addUpdate isActive (caught logs)) d),
          ((if isActive then [] else [EvDeleteFunction (Some (a_functionId a))])
           ++ [EvAddNotification n; EvEmit (resourceSlug (a_request a)) n]).
        split; [done|]. split; [exact Hne|].
        split; [by destruct isActive|].
        split; [by destruct isActive|].
        destruct isActive; simpl; rewrite <- !app_assoc; simpl; done.
  - unfold reconcileEdit, editToolUnsafe. cbn [tools record].
    match goal with
    | |- context [Mongo.updateOne ?i ?f ?u ?c] =>
        destruct (updateOne_shape i f u c) as [[Hnone ->]|(d & Hd & Hm & ->)]
    end.
    + simpl. split; [done|]. split; [done|]. left.
      split; [done|]. split; [by rewrite <- !app_assoc|].
      intros t Ht. unfold Mongo.findOne in Hnone. rewrite Ht in Hnone.
      by destruct (matches _ t).
    + assert (Hne : applyPatch (editUpdate a isActive (caught logs)) d <> d).
      { intros Heq. apply (f_equal state) in Heq.
        apply matches_editFilter in Hm as (_ & Hstate & _).
        rewrite Hstate in Heq. by destruct isActive. }
      destruct (decide (applyPatch (editUpdate a isActive (caught logs)) d = d))
        as [|_]; [done|]. cbn [Mongo.modifiedCount Nat.eqb].
      split; [by destruct isActive, (truthy (functionId existingTool))|].
      split; [by destruct isActive, (truthy (functionId existingTool))|]. right.
      set (n := deploymentNotification _ _ _ _ _).
      exists d, (applyPatch (editUpdate a isActive (caught logs)) d),
        ([EvAddNotification n; EvEmit (resourceSlug (a_request a)) n]
         ++ (if isActive
             then (if truthy (functionId existingTool)
                   then [EvDeleteFunction (functionId existingTool)] else [])
             else [EvDeleteFunction (Some (a_functionId a))])).
      split; [done|]. split; [exact Hne|].
      split; [by destruct isActive, (truthy (functionId existingTool))|].
      split; [by destruct isActive, (truthy (functionId existingTool))|].
      destruct isActive, (truthy (functionId existingTool)); simpl;
        rewrite <- !app_assoc; simpl; done.
Qed.

Lemma deletions_app l1 l2 : deletions (l1 ++ l2) = deletions l1 ++ deletions l2.
Proof.
  induction l1 as [|e l1 IH]; [done|]. destruct e; simpl; by rewrite ?IH.
Qed.

Lemma deletions_asked a isActive logs rest :
  deletions ([EvWaitForFunctionToBeActive (a_functionId a);
              EvGetFunctionLogs (a_functionId a);
              conditionalUpdate a isActive logs] ++ rest)
  = deletions rest.
Proof. unfold conditionalUpdate. by destruct (a_flow a). Qed.


(** X18. Whatever becomes of an attempt, its chain leaves the agents and
    the assets alone, touches no tool but its own, never recreates a tool
    that is gone, and on its own tool changes at most the state, the
    functionId and the function logs. *)
Theorem settle_frame a w :
  let w' := settle functionProvider a w in
  let key := toObjectId (a_toolId a) in
  agents w' = agents w
  /\ assets w' = assets w
  /\ (forall k, k <> key -> tools w' !! k = tools w !! k)
  /\ (tools w !! key = None -> tools w' !! key = None)
  /\ (forall t, tools w !! key = Some t ->
       exists t', tools w' !! key = Some t'
         /\ orgId t' = orgId t /\ teamId t' = teamId t /\ name t' = name t
         /\ description t' = description t /\ type t' = type t
         /\ datasourceId t' = datasourceId t
         /\ retriever_type t' = retriever_type t
         /\ retriever_config t' = retriever_config t
         /\ schema t' = schema t /\ data t' = data t /\ icon t' = icon t
         /\ runtime t' = runtime t)
  /\ exists new, trace w' = trace w ++ new.
Proof.
  intros w' key.
  assert (Hsame : forall w0 : World (Asset := Asset),
            tools w0 = tools w -> agents w0 = agents w ->
            assets w0 = assets w -> (exists new, trace w0 = trace w ++ new) ->
            agents w0 = agents w
            /\ assets w0 = assets w
            /\ (forall k, k <> key -> tools w0 !! k = tools w !! k)
            /\ (tools w !! key = None -> tools w0 !! key = None)
            /\ (forall t, tools w !! key = Some t ->
                 exists t', tools w0 !! key = Some t'
                   /\ orgId t' = orgId t /\ teamId t' = teamId t
                   /\ name t' = name t
                   /\ description t' = description t /\ type t' = type t
                   /\ datasourceId t' = datasourceId t
                   /\ retriever_type t' = retriever_type t
                   /\ retriever_config t' = retriever_config t
                   /\ schema t' = schema t /\ data t' = data t
                   /\ icon t' = icon t
                   /\ runtime t' = runtime t)
            /\ exists new, trace w0 = trace w ++ new).
  { intros w0 -> ? ? ?. split; [done|]. split; [done|]. split; [done|].
    split; [done|]. split; [|done]. intros t Ht. exists t. by repeat split. }
  destruct (a_deployed a) as [name|e|] eqn:Hdep.
  2:{ subst w'. unfold settle. rewrite Hdep. apply Hsame; try done.
      by eexists. }
  2:{ subst w'. unfold settle. rewrite Hdep. apply Hsame; try done.
      exists []. by rewrite app_nil_r. }
  destruct (fp_waitForFunctionToBeActive functionProvider (a_functionId a))
    as [isActive|e|] eqn:Hwait.
  2:{ subst w'. unfold settle. rewrite Hdep, Hwait. apply Hsame; try done.
      simpl. eexists. by rewrite <- app_assoc. }
  2:{ subst w'. unfold settle. rewrite Hdep, Hwait. apply Hsame; try done.
      by eexists. }
  assert (Hcase : fp_getFunctionLogs functionProvider (a_functionId a) = Pending
                  \/ fp_getFunctionLogs functionProvider (a_functionId a) <> Pending).
  { destruct (fp_getFunctionLogs functionProvider (a_functionId a)); auto. }
  destruct Hcase as [Hlogs|Hlogs].
  { subst w'. unfold settle. rewrite Hdep, Hwait, Hlogs. apply Hsame; try done.
    simpl. eexists. by rewrite <- app_assoc. }
  destruct (settle_resolved a w name isActive _ Hdep Hwait eq_refl Hlogs)
    as (Hag & Has & [(Htools & Htr & _)|(t & t' & rest & Ht & _ & Hflow & Htools & Htr)]);
    fold w' in Hag, Has, Htools, Htr.
  { apply Hsame; try done. by eexists. }
  split; [done|]. split; [done|]. rewrite Htools.
  split; [by intros k Hk; rewrite lookup_insert_ne|].
  split; [by fold key in Ht; rewrite Ht|].
  split; [|by eexists].
  fold key in Ht. intros t0 Ht0. assert (t0 = t) as -> by congruence.
  exists t'. split; [by rewrite lookup_insert_eq|].
  destruct (a_flow a); destruct Hflow as (_ & -> & _); by repeat split.
Qed.

(** X19. The conditional updates are filtered to FUNCTION_TOOL records of
    the team.  An attempt that resolves when its tool is gone, belongs to
    another team or is no longer a FUNCTION_TOOL changes no collection,
    sends no notification and deletes its own function. *)
Theorem settle_type_changed a w name isActive logs :
  a_deployed a = Fulfilled name ->
  fp_waitForFunctionToBeActive functionProvider (a_functionId a)
  = Fulfilled isActive ->
  fp_getFunctionLogs functionProvider (a_functionId a) = logs ->
  logs <> Pending ->
  (forall t, tools w !! toObjectId (a_toolId a) = Some t ->
     type t <> FUNCTION_TOOL
     \/ teamId t <> toObjectId (resourceSlug (a_request a))) ->
  let w' := settle functionProvider a w in
  tools w' = tools w
  /\ agents w' = agents w
  /\ trace w'
     = trace w ++ [EvWaitForFunctionToBeActive (a_functionId a);
                   EvGetFunctionLogs (a_functionId a);
                   conditionalUpdate a isActive (caught logs);
                   EvDeleteFunction (Some (a_functionId a))].
Proof.
  intros Hdep Hwait Hlogs Hset Hgone w'.
  destruct (settle_resolved a w name isActive logs Hdep Hwait Hlogs Hset)
    as (Hag & _ & [(Htools & Htr & _)|(t & t' & rest & Ht & _ & Hflow & _)]);
    [done|].
  exfalso. destruct (a_flow a); destruct Hflow as (Hm & _).
  - apply matches_addFilter in Hm as (? & _ & ?). by destruct (Hgone t Ht).
  - apply matches_editFilter in Hm as (? & _ & ?). by destruct (Hgone t Ht).
Qed.

(** X20. A tool that was deleted stays deleted: when a deletion has been
    answered 302 and an attempt for that tool resolves afterwards, the tool
    is not brought back and the attempt deletes its own function. *)
Theorem deleteToolApi_then_settle req w a name isActive logs :
  let r := deleteToolApi functionProvider req w in
  r.1 = respond 302 PEmpty ->
  b_toolId (body req) = Some (a_toolId a) ->
  a_deployed a = Fulfilled name ->
  fp_waitForFunctionToBeActive functionProvider (a_functionId a)
  = Fulfilled isActive ->
  fp_getFunctionLogs functionProvider (a_functionId a) = logs ->
  logs <> Pending ->
  let w' := settle functionProvider a r.2 in
  tools r.2 !! toObjectId (a_toolId a) = None
  /\ tools w' = tools r.2
  /\ deletions (drop (length (trace r.2)) (trace w')) = [Some (a_functionId a)].
Proof.
  intros r Hresp Hid Hdep Hwait Hlogs Hset w'.
  assert (Hgone : tools r.2 !! toObjectId (a_toolId a) = None).
  { subst r. revert Hresp. unfold deleteToolApi, respond. rewrite Hid.
    destruct (_ || _); [done|].
    destruct (getToolById _ _ _) as [existingTool|] eqn:Hget; [|done].
    apply getToolById_Some in Hget as [Hlook Hm].
    assert (Hdel : forall w0 : World (Asset := Asset),
              tools w0 = tools w ->
              (deleteToolById (resourceSlug req) (a_toolId a) (tools w0)).2
              !! toObjectId (a_toolId a) = None).
    { intros w0 ->. unfold deleteToolById, Mongo.deleteOne, Mongo.findOne.
      rewrite Hlook, Hm. apply lookup_delete_eq. }
    destruct (bool_decide (type existingTool = FUNCTION_TOOL)).
    - destruct (fp_deleteFunction functionProvider _); [|done..].
      intros _. cbn [snd].
      specialize (Hdel (record (EvDeleteFunction (functionId existingTool)) w) eq_refl).
      by destruct (deleteToolById _ _ _).
    - intros _. cbn [snd]. specialize (Hdel w eq_refl).
      by destruct (deleteToolById _ _ _). }
  split; [done|].
  destruct (settle_resolved a r.2 name isActive logs Hdep Hwait Hlogs Hset)
    as (_ & _ & [(Htools & Htr & _)|(t & _ & _ & Ht & _)]); [|congruence].
  fold w' in Htools, Htr. split; [done|].
  by rewrite Htr, drop_app_length, deletions_asked.
Qed.

(** *** Deleting a tool *)

(** X21. A deletion is refused without touching anything: 400 when the
    toolId is missing or not 24 characters long, 404 when no tool of this
    team has that id (a tool of another team counts as not found).  The
    tools and the agents change only when the request is answered 302. *)
Theorem deleteToolApi_refused req w :
  let r := deleteToolApi functionProvider req w in
  ((forall toolId, b_toolId (body req) = Some toolId ->
      String.length toolId <> 24%nat) ->
   r = (respond 400 (PError "Invalid inputs"), w))
  /\ (forall toolId,
        b_toolId (body req) = Some toolId ->
        String.length toolId = 24%nat ->
        (forall t, tools w !! toObjectId toolId = Some t ->
           teamId t <> toObjectId (resourceSlug req)) ->
        r = (respond 404 (PError "Tool not found"), w))
  /\ (r.1 <> respond 302 PEmpty ->
      tools r.2 = tools w /\ agents r.2 = agents w /\ assets r.2 = assets w).
Proof.
  intros r. subst r. unfold deleteToolApi. split; [|split].
  - intros Hbad. destruct (b_toolId (body req)) as [toolId|]; [|done].
    specialize (Hbad toolId eq_refl).
    rewrite (bool_decide_eq_false_2 (String.length toolId = 24%nat)) by done.
    by rewrite orb_true_r.
  - intros toolId -> Hlen Hteam.
    assert (Htruthy : truthy (Some toolId) = true).
    { unfold truthy. destruct toolId; [done|]. by rewrite bool_decide_eq_false_2. }
    rewrite Htruthy, bool_decide_eq_true_2 by done. cbn [negb orb].
    destruct (getToolById _ _ _) as [t|] eqn:Hget; [|done].
    apply getToolById_Some in Hget as [Hlook Hm]. exfalso.
    apply (Hteam t Hlook). unfold matches, byTeam, requires in Hm. simpl in Hm.
    rewrite !andb_true_r in Hm. by apply bool_decide_eq_true in Hm.
  - destruct (b_toolId (body req)) as [toolId|]; [|done].
    destruct (_ || _); [done|].
    destruct (getToolById _ _ _) as [existingTool|]; [|done].
    destruct (bool_decide (type existingTool = FUNCTION_TOOL)).
    + by destruct (fp_deleteFunction functionProvider _).
    + done.
Qed.

(** Deleting a tool that is not a FUNCTION_TOOL calls the provider
    not at all: the tool and its references are removed and the request is
    answered 302; the other tools are left as they were. *)
Theorem deleteToolApi_other_types req w toolId existingTool :
  b_toolId (body req) = Some toolId ->
  String.length toolId = 24%nat ->
  getToolById (resourceSlug req) (Some toolId) (tools w) = Some existingTool ->
  type existingTool <> FUNCTION_TOOL ->
  let r := deleteToolApi functionProvider req w in
  r.1 = respond 302 PEmpty
  /\ trace r.2 = trace w ++ [EvDeleteToolById toolId; EvRemoveAgentsTool toolId]
  /\ tools r.2 !! toObjectId toolId = None
  /\ (forall k, k <> toObjectId toolId -> tools r.2 !! k = tools w !! k)
  /\ agents r.2 = removeAgentsTool (resourceSlug req) toolId (agents w).
Proof.
  intros Hid Hlen Hget Htype r. subst r.
  unfold deleteToolApi. rewrite Hid.
  assert (Htruthy : truthy (Some toolId) = true).
  { unfold truthy. destruct toolId; [done|]. by rewrite bool_decide_eq_false_2. }
  rewrite Htruthy, bool_decide_eq_true_2, Hget, bool_decide_eq_false_2 by done.
  cbn [negb orb]. unfold deleteToolById, Mongo.deleteOne. cbn [tools record].
  unfold getToolById in Hget. rewrite Hget. simpl.
  split; [done|]. split; [by rewrite <- !app_assoc|].
  split; [apply lookup_delete_eq|]. split; [|done].
  intros k Hk. by rewrite lookup_delete_ne.
Qed.

(** *** Editing a tool *)

(** X23. An edit that turns a FUNCTION_TOOL into another type writes the
    form with state READY, asks for the deletion of the tool's function and
    deploys nothing.  The answer waits for that deletion: 302 when it
    succeeds, the deletion's failure otherwise.  The record keeps the
    functionId of the function whose deletion was asked for. *)
Theorem editToolApi_leaves_function_type req nd w existingTool toolId :
  validateTool (body req) = None ->
  invalidDatasource (body req) nd = false ->
  b_toolId (body req) = Some toolId ->
  getToolById (resourceSlug req) (Some toolId) (tools w) = Some existingTool ->
  type existingTool = FUNCTION_TOOL ->
  b_type (body req) <> FUNCTION_TOOL ->
  let r := editToolApi validateTool toSnakeCase functionProvider req nd w in
  r.1.1 = andThen (fp_deleteFunction functionProvider (functionId existingTool))
            {| status := 302;
               payload := PRedirect ("/" ++ resourceSlug req ++ "/tools")%string |}
  /\ r.2 = None
  /\ deletions (drop (length (trace w)) (trace r.1.2))
     = [functionId existingTool]
  /\ deployments (drop (length (trace w)) (trace r.1.2)) = []
  /\ exists t', tools r.1.2 !! toObjectId toolId = Some t'
                /\ type t' = b_type (body req)
                /\ state t' = READY
                /\ functionId t' = functionId existingTool.
Proof.
  intros Hval Hds Hid Hget Htype Hother r. subst r.
  unfold editToolApi. rewrite Hval, Hds, Hid, Hget. cbn zeta.
  apply getToolById_Some in Hget as [Hlook Hm].
  unfold editTool. simpl default.
  rewrite (updateOne_matched _ _ _ _ existingTool) by done.
  rewrite (bool_decide_eq_true_2 (type existingTool = FUNCTION_TOOL)) by done.
  rewrite (bool_decide_eq_false_2 (b_type (body req) = FUNCTION_TOOL)) by done.
  cbn [negb andb].
  destruct (fp_deleteFunction functionProvider (functionId existingTool));
    cbn [fst snd tools record withTools trace andThen];
    (split; [done|]); (split; [done|]);
    rewrite <- !app_assoc, drop_app_length;
    (split; [done|]); (split; [done|]);
    eexists; (split; [apply lookup_insert_eq|]); done.
Qed.



(** X26. Whatever an edit request is answered, it leaves the agents and
    the assets alone, touches no tool but the one it names, creates none,
    and on that tool never changes the functionId, the function logs, the
    stored runtime, the icon or the owners: a new functionId is only ever
    written by the callback of a deployment that activated. *)
Theorem editToolApi_frame req nd w :
  let r := editToolApi validateTool toSnakeCase functionProvider req nd w in
  agents r.1.2 = agents w
  /\ assets r.1.2 = assets w
  /\ (forall k, b_toolId (body req) <> Some k -> tools r.1.2 !! k = tools w !! k)
  /\ (forall k, tools w !! k = None -> tools r.1.2 !! k = None)
  /\ (forall k t, tools w !! k = Some t ->
       exists t', tools r.1.2 !! k = Some t'
         /\ functionId t' = functionId t /\ functionLogs t' = functionLogs t
         /\ runtime t' = runtime t /\ icon t' = icon t
         /\ orgId t' = orgId t /\ teamId t' = teamId t)
  /\ exists new, trace r.1.2 = trace w ++ new.
Proof.
  intros r.
  assert (Hsame : forall w0 : World (Asset := Asset),
            tools w0 = tools w -> agents w0 = agents w ->
            assets w0 = assets w -> (exists new, trace w0 = trace w ++ new) ->
            agents w0 = agents w
            /\ assets w0 = assets w
            /\ (forall k, b_toolId (body req) <> Some k ->
                 tools w0 !! k = tools w !! k)
            /\ (forall k, tools w !! k = None -> tools w0 !! k = None)
            /\ (forall k t, tools w !! k = Some t ->
                 exists t', tools w0 !! k = Some t'
                   /\ functionId t' = functionId t
                   /\ functionLogs t' = functionLogs t
                   /\ runtime t' = runtime t /\ icon t' = icon t
                   /\ orgId t' = orgId t /\ teamId t' = teamId t)
            /\ exists new, trace w0 = trace w ++ new).
  { intros w0 -> ? ? ?. split; [done|]. split; [done|]. split; [done|].
    split; [done|]. split; [|done]. intros k t Ht. exists t. by repeat split. }
  assert (Hput : forall (w0 : World (Asset := Asset)) toolId existingTool t1,
            b_toolId (body req) = Some toolId ->
            tools w !! toObjectId toolId = Some existingTool ->
            tools w0 = <[toObjectId toolId := t1]> (tools w) ->
            functionId t1 = functionId existingTool ->
            functionLogs t1 = functionLogs existingTool ->
            runtime t1 = runtime existingTool -> icon t1 = icon existingTool ->
            orgId t1 = orgId existingTool -> teamId t1 = teamId existingTool ->
            agents w0 = agents w ->
            assets w0 = assets w -> (exists new, trace w0 = trace w ++ new) ->
            agents w0 = agents w
            /\ assets w0 = assets w
            /\ (forall k, b_toolId (body req) <> Some k ->
                 tools w0 !! k = tools w !! k)
            /\ (forall k, tools w !! k = None -> tools w0 !! k = None)
            /\ (forall k t, tools w !! k = Some t ->
                 exists t', tools w0 !! k = Some t'
                   /\ functionId t' = functionId t
                   /\ functionLogs t' = functionLogs t
                   /\ runtime t' = runtime t /\ icon t' = icon t
                   /\ orgId t' = orgId t /\ teamId t' = teamId t)
            /\ exists new, trace w0 = trace w ++ new).
  { intros w0 toolId existingTool t1 Hid Hlook -> ? ? ? ? ? ? ? ? ?.
    unfold toObjectId in *.
    split; [done|]. split; [done|].
    split; [intros k Hk; rewrite lookup_insert_ne; [done|congruence]|].
    split.
    { intros k Hk. rewrite lookup_insert_ne; [done|congruence]. }
    split; [|done]. intros k t Ht.
    destruct (decide (k = toolId)) as [->|Hne].
    - rewrite lookup_insert_eq. exists t1. assert (t = existingTool) as -> by congruence.
      by repeat split.
    - rewrite lookup_insert_ne by done. exists t. by repeat split. }
  subst r. unfold editToolApi.
  destruct (validateTool (body req)).
  { apply Hsame; try done. exists []. by rewrite app_nil_r. }
  destruct (invalidDatasource (body req) nd).
  { apply Hsame; try done. exists []. by rewrite app_nil_r. }
  destruct (getToolById _ _ _) as [existingTool|] eqn:Hget.
  2:{ apply Hsame; try done. exists []. by rewrite app_nil_r. }
  destruct (b_toolId (body req)) as [toolId|] eqn:Hid; [|done].
  apply getToolById_Some in Hget as [Hlook Hm].
  cbn zeta. unfold editTool. simpl default.
  rewrite (updateOne_matched _ _ _ _ existingTool) by done.
  destruct (_ && negb _).
  { destruct (fp_deleteFunction functionProvider _); cbn [fst snd];
      (eapply (Hput _ toolId existingTool); [done|done|reflexivity|..]; try done;
       simpl; eexists; by rewrite <- !app_assoc). }
  destruct (_ && _).
  2:{ cbn [fst snd].
      eapply (Hput _ toolId existingTool); [done|done|reflexivity|..]; try done.
      by eexists. }
  destruct (fp_deployFunction functionProvider _) as [deployed|e].
  { cbn [fst snd].
    eapply (Hput _ toolId existingTool); [done|done|reflexivity|..]; try done.
    simpl; eexists; by rewrite <- !app_assoc. }
  cbn [tools record withTools].
  erewrite updateOne_matched; [|apply lookup_insert_eq|].
  2:{ unfold matches, byTeam, requires in *. simpl in *. done. }
  cbn [fst snd].
  eapply (Hput _ toolId existingTool); [done|done|..].
  { cbn [tools withTools]. unfold toObjectId. apply insert_insert_eq. }
  all: try done.
  simpl; eexists; by rewrite <- !app_assoc.
Qed.

End ControllerMore.

(** ** The form field component and the class list *)
Section UiMore.
Import SortableItem.
Local Open Scope list_scope.

Lemma filterIndex_delete {A} index (l : list A) :
  forall k,
    filterIndex (fun i => negb (Nat.eqb i index)) k l
    = if decide (index < k)%nat then l else delete (index - k)%nat l.
Proof.
  induction l as [|x l IH]; intros k; simpl.
  { by destruct (decide _). }
  rewrite IH. destruct (Nat.eqb_spec k index) as [->|Hne]; simpl.
  - rewrite decide_True by lia. rewrite decide_False by lia.
    by rewrite Nat.sub_diag.
  - destruct (decide (index < k)%nat).
    + by rewrite decide_True by lia.
    + rewrite decide_False by lia.
      replace (index - k)%nat with (S (index - S k)) by lia. done.
Qed.

(** X27. The remove button of option number [index] removes that option
    and no other: the options left are the rendered ones without position
    [index], in their order, and nothing else of the field changes. *)
Theorem onOptionRemove_deletes index renderedOptions prevConfig :
  (index < length renderedOptions)%nat ->
  let c := onOptionRemove index renderedOptions prevConfig in
  options c = Some (delete index renderedOptions)
  /\ options c = Some (take index renderedOptions ++ drop (S index) renderedOptions)
  /\ (forall o, options c = Some o -> S (length o) = length renderedOptions)
  /\ withOptions (options prevConfig) c = prevConfig.
Proof.
  intros Hlt c. subst c. unfold onOptionRemove. cbn [options withOptions].
  rewrite filterIndex_delete, decide_False by lia. rewrite Nat.sub_0_r.
  split; [done|]. split; [by rewrite delete_take_drop|].
  split; [|by destruct prevConfig].
  intros o [= <-]. rewrite length_delete by (by apply lookup_lt_is_Some_2). lia.
Qed.

(** X28. The effect leaves every choice field with at least one option,
    changes nothing but the options, leaves alone a field that has an
    option or is not a choice field, and running it again changes
    nothing. *)
Theorem optionsEffect_normalises formConfig :
  let c := optionsEffect formConfig in
  (isChoice (type formConfig) = true -> exists o l, options c = Some (o :: l))
  /\ (isChoice (type formConfig) = false -> c = formConfig)
  /\ (forall o l, options formConfig = Some (o :: l) -> c = formConfig)
  /\ withOptions (options formConfig) c = formConfig
  /\ optionsEffect c = c.
Proof.
  intros c. subst c. unfold optionsEffect.
  destruct (isChoice (type formConfig)) eqn:Hchoice; cbn [andb].
  2:{ rewrite Hchoice. repeat split; try done. by destruct formConfig. }
  destruct (options formConfig) as [[|o l]|] eqn:Hopt; cbn [bool_decide];
    try rewrite bool_decide_eq_true_2 by done;
    try rewrite bool_decide_eq_false_2 by done.
  - cbn [type options withOptions]. rewrite Hchoice. cbn.
    split; [by eauto|]. split; [done|]. split; [done|].
    split; [|done]. destruct formConfig; simpl in *; by subst.
  - rewrite Hchoice, Hopt. rewrite bool_decide_eq_false_2 by done. cbn.
    split; [by eauto|]. split; [done|]. split; [done|].
    split; [|done]. destruct formConfig; simpl in *; by subst.
  - cbn [type options withOptions]. rewrite Hchoice. cbn.
    split; [by eauto|]. split; [done|]. split; [done|].
    split; [|done]. destruct formConfig; simpl in *; by subst.
Qed.

(** X29. Pressing Enter in an option input does what the Add Option
    button does, any other key does nothing; and removing the option that
    was just added gives back the field as it was. *)
Theorem addOption_then_remove key prevConfig l :
  options prevConfig = Some l ->
  onOptionKeyDown key l prevConfig
  = (if decide (key = "Enter") then Some (addOption prevConfig) else None)
  /\ options (addOption prevConfig) = Some (l ++ [EmptyString])
  /\ onOptionRemove (length l) (l ++ [EmptyString]) (addOption prevConfig)
     = prevConfig.
Proof.
  intros Hopt. unfold onOptionKeyDown, addOption, onOptionRemove.
  rewrite Hopt. cbn [default options withOptions].
  split; [done|]. split; [done|].
  rewrite filterIndex_delete, decide_False by lia. rewrite Nat.sub_0_r.
  rewrite delete_take_drop, take_app_length.
  rewrite drop_app_ge by lia.
  replace (S (length l) - length l)%nat with 1%nat by lia. simpl.
  rewrite app_nil_r. destruct prevConfig; simpl in *; by subst.
Qed.

Lemma string_app_assoc (a b c : string) :
  ((a ++ b) ++ c)%string = (a ++ (b ++ c))%string.
Proof.
  induction a as [|x a IH]; [done|].
  change (String x ((a ++ b) ++ c)%string = String x (a ++ b ++ c)%string).
  by rewrite IH.
Qed.

Lemma join_fold sep (r : list string) :
  forall a b : string,
    fold_left (fun acc y => (acc ++ sep ++ y)%string) r (a ++ b)%string
    = (a ++ fold_left (fun acc y => (acc ++ sep ++ y)%string) r b)%string.
Proof.
  induction r as [|z r IH]; intros a b; simpl; [done|].
  by rewrite string_app_assoc, IH.
Qed.

Lemma join_cons sep x y (r : list string) :
  Provider.join sep (x :: y :: r)
  = (x ++ sep ++ Provider.join sep (y :: r))%string.
Proof.
  unfold Provider.join. simpl.
  rewrite (join_fold sep r x (sep ++ y)%string).
  by rewrite <- (join_fold sep r sep y).
Qed.

Lemma join_app sep (l1 l2 : list string) :
  l1 <> [] -> l2 <> [] ->
  Provider.join sep (l1 ++ l2)
  = (Provider.join sep l1 ++ sep ++ Provider.join sep l2)%string.
Proof.
  intros H1 H2. induction l1 as [|x l1 IH]; [done|].
  destruct l1 as [|y l1].
  - destruct l2 as [|z l2]; [done|]. simpl app. by rewrite join_cons.
  - simpl app in *. rewrite !join_cons, IH by done.
    by rewrite !string_app_assoc.
Qed.

Lemma join_empty sep (l : list string) :
  Forall (fun x => x <> EmptyString) l ->
  Provider.join sep l = EmptyString -> l = [].
Proof.
  intros Hall. destruct l as [|x l]; [done|].
  apply Forall_cons in Hall as [Hx _].
  destruct l as [|y l]; [by simpl|]. rewrite join_cons.
  by destruct x.
Qed.

Lemma truthy_default_nonempty (l : list (option string)) :
  Forall (fun x => x <> EmptyString)
    (default EmptyString
     <$> filter (fun c => Is_true (ToolController.truthy c)) l).
Proof.
  apply Forall_fmap, Forall_forall. intros c Hc.
  apply list_elem_of_filter in Hc as [Ht _].
  destruct c as [x|]; [|done]. simpl in *. unfold ToolController.truthy in Ht.
  intros ->. by rewrite bool_decide_eq_true_2 in Ht.
Qed.

(** X30. [classNames] joins the truthy classes with single spaces.  Falsy
    entries contribute nothing, so the class string of two lists put
    together is the two class strings separated by one space, or just the
    one that is not empty; it is empty exactly when every entry is
    falsy. *)
Theorem classNames_app l1 l2 :
  (Billing.classNames l1 = EmptyString
   <-> forall c, c ∈ l1 -> ToolController.truthy c = false)
  /\ Billing.classNames (l1 ++ l2)
     = (if decide (Billing.classNames l1 = EmptyString)
        then Billing.classNames l2
        else if decide (Billing.classNames l2 = EmptyString)
        then Billing.classNames l1
        else (Billing.classNames l1 ++ " " ++ Billing.classNames l2)%string).
Proof.
  assert (Hnil : forall l, Billing.classNames l = EmptyString
                   <-> filter (fun c => Is_true (ToolController.truthy c)) l = []).
  { intros l. unfold Billing.classNames. split.
    - intros Hj. apply join_empty in Hj; [|apply truthy_default_nonempty].
      by apply fmap_nil_inv in Hj.
    - by intros ->. }
  split.
  - rewrite Hnil. split.
    + intros Hf c Hc. destruct (ToolController.truthy c) eqn:Ht; [|done].
      assert (c ∈ filter (fun c => Is_true (ToolController.truthy c)) l1) as Hin.
      { apply list_elem_of_filter. by rewrite Ht. }
      rewrite Hf in Hin. by apply elem_of_nil in Hin.
    + intros Hall. induction l1 as [|c l1 IH]; [done|].
      rewrite filter_cons. rewrite decide_False.
      * apply IH. intros c' Hc'. apply Hall. by right.
      * rewrite (Hall c) by left. by intros [].
  - destruct (decide (Billing.classNames l1 = EmptyString)) as [H1|H1].
    { apply Hnil in H1. unfold Billing.classNames.
      by rewrite filter_app, H1. }
    destruct (decide (Billing.classNames l2 = EmptyString)) as [H2|H2].
    { apply Hnil in H2. unfold Billing.classNames.
      by rewrite filter_app, H2, app_nil_r. }
    unfold Billing.classNames. rewrite filter_app, fmap_app.
    apply join_app.
    + intros Hn. apply fmap_nil_inv in Hn. by apply Hnil in Hn.
    + intros Hn. apply fmap_nil_inv in Hn. by apply Hnil in Hn.
Qed.

End UiMore.

(** ** Instances of the further properties *)

(** A wait with no time at all. *)
Lemma waitForFunctionToBeActive_no_time_witness :
  Provider.waitForFunctionToBeActive Provider.exampleConfig Scenario.allActivate
    "fn-123" 0 Provider.probed
  = Some (Fulfilled false, Provider.probed).
Proof.
  apply (waitForFunctionToBeActive_no_time Provider.exampleConfig
           Scenario.allActivate "fn-123" 0 Provider.probed).
  lia.
Defined.

(** Two polls see DEPLOYING, the third sees ACTIVE, 15000ms into the
    default timeout. *)
Lemma waitForFunctionToBeActive_activates_witness :
  exists s' new,
    Provider.waitForFunctionToBeActive Provider.exampleConfig Examples.slowStart
      "fn-123" Provider.defaultMaxWaitTime Provider.probed
    = Some (Fulfilled true, s')
    /\ Provider.gets s' = 4%nat
    /\ Provider.now s' = 15000
    /\ Provider.effects s' = new
    /\ Provider.delaysOf new = [5000; 10000].
Proof.
  destruct (waitForFunctionToBeActive_activates Provider.exampleConfig
              Examples.slowStart "fn-123" Provider.defaultMaxWaitTime
              Provider.probed 2)
    as (s' & new & Hrun & Hgets & Hnow & Heff & Hdel).
  - intros j Hj. destruct j as [|[|j]]; [reflexivity|reflexivity|lia].
  - reflexivity.
  - vm_compute. reflexivity.
  - exists s', new. split; [exact Hrun|]. split; [exact Hgets|].
    split; [exact Hnow|]. split; [exact Heff|exact Hdel].
Defined.

(** The upload is refused: the deploy fails with the upload's error having
    asked the backend nothing. *)
Lemma deployFunction_upload_failure_witness :
  (Provider.deployFunction Provider.exampleConfig Examples.uploadFails
     (default EmptyString) ["functions-framework"] Examples.exampleArgs
     Provider.idle).1
  = Rejected Provider.internalError
  /\ Provider.gets
       (Provider.deployFunction Provider.exampleConfig Examples.uploadFails
          (default EmptyString) ["functions-framework"] Examples.exampleArgs
          Provider.idle).2
     = 0%nat.
Proof.
  destruct (deployFunction_upload_failure Provider.exampleConfig
              Examples.uploadFails (default EmptyString) ["functions-framework"]
              Examples.exampleArgs Provider.idle)
    as (Hres & _ & Hgets).
  - intros u. discriminate.
  - split; [exact Hres|exact Hgets].
Defined.

(** A first deploy of fn-123 creates the function. *)
Lemma deployFunction_fulfilled_witness :
  exists request,
    Provider.r_name request
    = "projects/agentcloud/locations/us-central1/functions/function-fn-123"
    /\ Provider.r_object request = "functions/fn-123/function.zip"
    /\ Provider.r_bucket request = "artifacts"
    /\ Provider.r_buildEnvironmentVariables request = None.
Proof.
  destruct (deployFunction_fulfilled Provider.exampleConfig Scenario.allActivate
              (default EmptyString) ["functions-framework"] Examples.exampleArgs
              Provider.idle
              "projects/agentcloud/locations/us-central1/functions/function-fn-123"
              eq_refl)
    as (_ & request & _ & Hname & Hobj & Hbucket & _ & Henv).
  exists request. split; [exact Hname|]. split; [exact Hobj|].
  split; [exact Hbucket|exact Henv].
Defined.

(** The function deployed as fn-123 is the one deleted as fn-123. *)
Lemma deployFunction_name_is_shared_witness :
  Provider.effects
    (Provider.deleteFunction Provider.exampleConfig Scenario.allActivate
       (Some "fn-123") Provider.idle).2
  = [Provider.DeleteFunction
       "projects/agentcloud/locations/us-central1/functions/function-fn-123"].
Proof.
  destruct (deployFunction_name_is_shared Provider.exampleConfig
              Scenario.allActivate (default EmptyString) ["functions-framework"]
              Examples.exampleArgs Provider.idle
              "projects/agentcloud/locations/us-central1/functions/function-fn-123"
              Provider.idle eq_refl)
    as [Hdel _].
  change (Provider.id Examples.exampleArgs) with "fn-123" in Hdel.
  rewrite Hdel. reflexivity.
Defined.

(** An asset added to an empty collection and deleted again. *)
Lemma addAsset_then_deleteAssetById_witness :
  AssetDb.deleteAssetById "65f0c0ffee0000000000dddd"
    (AssetDb.addAsset "65f0c0ffee0000000000dddd" "logo.png" ∅).2
  = (true, ∅).
Proof.
  apply (addAsset_then_deleteAssetById (Asset := string)
           "65f0c0ffee0000000000dddd" "logo.png" ∅).
  reflexivity.
Defined.


(** A create request against the provider that throws. *)
Lemma addToolApi_deploy_throws_witness :
  let r := Scenario.add Examples.throwing Examples.createRequest
             (Scenario.draws "fn-a") Scenario.emptyWorld in
  r.2 = None
  /\ ToolController.deletions (ToolController.trace r.1.2) = [Some "fn-a"]
  /\ exists t, ToolController.tools r.1.2 !! Scenario.toolKey = Some t
               /\ ToolDb.state t = ToolDb.ERROR.
Proof.
  intros r.
  destruct (addToolApi_deploy_throws Scenario.noFilename Scenario.acceptAll
              Scenario.snake Scenario.runtimes Examples.throwing
              Examples.createRequest (Scenario.draws "fn-a") Scenario.emptyWorld
              Scenario.toolKey Provider.internalError
              eq_refl eq_refl eq_refl eq_refl eq_refl eq_refl)
    as (_ & Hatt & _ & Hdel & t & Ht & Hstate & _).
  split; [exact Hatt|]. split; [exact Hdel|].
  exists t. split; [exact Ht|exact Hstate].
Defined.

(** The create of the first scenario, when its deployment activates with
    nothing in between. *)
Lemma addToolApi_then_settle_witness :
  exists t',
    ToolController.tools
      (ToolController.settle (Scenario.google Scenario.onlyAActivates)
         Scenario.creation Scenario.created.1.2)
    !! Scenario.toolKey = Some t'
    /\ ToolDb.state t' = ToolDb.READY
    /\ ToolDb.functionId t' = Some "fn-a".
Proof.
  destruct (addToolApi_then_settle Scenario.noFilename Scenario.acceptAll
              Scenario.snake Scenario.runtimes
              (Scenario.google Scenario.onlyAActivates)
              Examples.createRequest (Scenario.draws "fn-a") Scenario.emptyWorld
              Scenario.creation
              (Provider.functionNameOf Provider.exampleConfig (Some "fn-a"))
              true (Fulfilled "Traceback (most recent call last)"))
    as (_ & (t' & Ht & Hstate & Hfn & _) & _).
  - vm_compute. reflexivity.
  - reflexivity.
  - vm_compute. reflexivity.
  - reflexivity.
  - discriminate.
  - exists t'. split; [exact Ht|]. split; [exact Hstate|exact Hfn].
Defined.


(** The redeployment of the examples resolves after the tool was turned
    into a RAG tool. *)
Lemma settle_type_changed_witness :
  ToolController.tools
    (ToolController.settle (Scenario.google Scenario.allActivate)
       (Scenario.redeployment Scenario.plainData) Examples.retyped.1.2)
  = ToolController.tools Examples.retyped.1.2.
Proof.
  destruct (settle_type_changed (Scenario.google Scenario.allActivate)
              (Scenario.redeployment Scenario.plainData) Examples.retyped.1.2
              (Provider.functionNameOf Provider.exampleConfig (Some "fn-new"))
              true (Fulfilled "Traceback (most recent call last)"))
    as (Htools & _).
  - reflexivity.
  - vm_compute. reflexivity.
  - reflexivity.
  - discriminate.
  - intros t Ht. vm_compute in Ht. injection Ht as <-. left. discriminate.
  - exact Htools.
Defined.

(** The tool of the examples is deleted while its redeployment is in
    flight. *)
Lemma deleteToolApi_then_settle_witness :
  let r := ToolController.deleteToolApi (Scenario.google Scenario.allActivate)
             Scenario.deleteRequest (Scenario.readyWorld Scenario.plainData) in
  let w' := ToolController.settle (Scenario.google Scenario.allActivate)
              (Scenario.redeployment Scenario.plainData) r.2 in
  ToolController.tools w' = ToolController.tools r.2
  /\ ToolController.deletions
       (drop (length (ToolController.trace r.2)) (ToolController.trace w'))
     = [Some "fn-new"].
Proof.
  intros r w'.
  destruct (deleteToolApi_then_settle (Scenario.google Scenario.allActivate)
              Scenario.deleteRequest (Scenario.readyWorld Scenario.plainData)
              (Scenario.redeployment Scenario.plainData)
              (Provider.functionNameOf Provider.exampleConfig (Some "fn-new"))
              true (Fulfilled "Traceback (most recent call last)"))
    as (_ & Htools & Hdel).
  - vm_compute. reflexivity.
  - reflexivity.
  - reflexivity.
  - vm_compute. reflexivity.
  - reflexivity.
  - discriminate.
  - split; [exact Htools|exact Hdel].
Defined.

(** The tool of the examples is turned into a RAG tool. *)
Lemma editToolApi_leaves_function_type_witness :
  ToolController.deletions (ToolController.trace Examples.retyped.1.2)
  = [Some "fn-123"]
  /\ exists t', ToolController.tools Examples.retyped.1.2 !! Scenario.toolKey
                = Some t'
                /\ ToolDb.type t' = ToolDb.RAG_TOOL
                /\ ToolDb.state t' = ToolDb.READY
                /\ ToolDb.functionId t' = Some "fn-123".
Proof.
  destruct (editToolApi_leaves_function_type (Asset := unit) Scenario.acceptAll
              Scenario.snake (Scenario.google Scenario.allActivate)
              Examples.retypeRequest (Scenario.draws "fn-unused")
              (Scenario.readyWorld Scenario.plainData)
              (Scenario.readyTool Scenario.plainData) Scenario.toolKey)
    as (_ & _ & Hdel & _ & t' & Ht & Hty & Hst & Hfn).
  - reflexivity.
  - reflexivity.
  - reflexivity.
  - vm_compute. reflexivity.
  - reflexivity.
  - discriminate.
  - split; [exact Hdel|]. exists t'. split; [exact Ht|].
    split; [exact Hty|]. split; [exact Hst|exact Hfn].
Defined.



(** Two edits of the described tool; the later one commits first. *)
Lemma supersession_between_edits_witness :
  let data := Scenario.handlerData "def handler(): return 1" in
  let w := (Examples.describedAgain data).1.2 in
  let wB := ToolController.settle (Scenario.google Scenario.allActivate)
              (Examples.laterRedeployment data) w in
  let wA := ToolController.settle (Scenario.google Scenario.allActivate)
              (Scenario.redeployment data) wB in
  ToolController.tools wA = ToolController.tools wB
  /\ ToolController.deletions
       (drop (length (ToolController.trace wB)) (ToolController.trace wA))
     = [Some "fn-new"].
Proof.
  intros data w wB wA.
  destruct (supersession_between_edits (Scenario.google Scenario.allActivate)
              (Scenario.redeployment data) (Examples.laterRedeployment data)
              (Scenario.readyTool data)
              (default (Scenario.readyTool data)
                 (ToolController.tools (Scenario.described data).1.2
                  !! Scenario.toolKey))
              (default (Scenario.readyTool data)
                 (ToolController.tools w !! Scenario.toolKey))
              w
              (Provider.functionNameOf Provider.exampleConfig (Some "fn-new"))
              (Provider.functionNameOf Provider.exampleConfig (Some "fn-newer"))
              true true
              (Fulfilled "Traceback (most recent call last)")
              (Fulfilled "Traceback (most recent call last)"))
    as (Htools & _ & Htrace).
  - reflexivity.
  - vm_compute. reflexivity.
  - reflexivity.
  - reflexivity.
  - vm_compute. reflexivity.
  - vm_compute. reflexivity.
  - vm_compute. reflexivity.
  - reflexivity.
  - reflexivity.
  - discriminate.
  - discriminate.
  - vm_compute. reflexivity.
  - vm_compute. reflexivity.
  - split; [exact Htools|].
    fold wB wA in Htrace. rewrite Htrace, drop_app_length. reflexivity.
Defined.

(** The create and the edit of the first scenario, on a backend where the
    edit's deployment activates and commits first. *)
Lemma supersession_create_then_active_edit_witness :
  let w := Scenario.edited.1.2 in
  let wB := ToolController.settle (Scenario.google Scenario.allActivate)
              Examples.edition w in
  let wA := ToolController.settle (Scenario.google Scenario.allActivate)
              Scenario.creation wB in
  ToolController.tools wA = ToolController.tools wB
  /\ ToolController.deletions
       (drop (length (ToolController.trace wB)) (ToolController.trace wA))
     = [Some "fn-a"].
Proof.
  intros w wB wA.
  destruct (supersession_create_then_active_edit
              (Scenario.google Scenario.allActivate)
              Scenario.creation Examples.edition
              (default (Scenario.readyTool Scenario.plainData)
                 (ToolController.tools Scenario.created.1.2 !! Scenario.toolKey))
              (default (Scenario.readyTool Scenario.plainData)
                 (ToolController.tools w !! Scenario.toolKey))
              w
              (Provider.functionNameOf Provider.exampleConfig (Some "fn-a"))
              (Provider.functionNameOf Provider.exampleConfig (Some "fn-b"))
              true
              (Fulfilled "Traceback (most recent call last)")
              (Fulfilled "Traceback (most recent call last)"))
    as (Htools & Htrace).
  - reflexivity.
  - vm_compute. reflexivity.
  - reflexivity.
  - discriminate.
  - reflexivity.
  - vm_compute. reflexivity.
  - vm_compute. reflexivity.
  - vm_compute. reflexivity.
  - reflexivity.
  - reflexivity.
  - discriminate.
  - discriminate.
  - vm_compute. reflexivity.
  - vm_compute. reflexivity.
  - split; [exact Htools|].
    fold wB wA in Htrace. rewrite Htrace, drop_app_length. reflexivity.
Defined.

(** Removing the second of three options. *)
Lemma onOptionRemove_deletes_witness :
  SortableItem.options
    (SortableItem.onOptionRemove 1 ["red"; "green"; "blue"] Examples.radioField)
  = Some ["red"; "blue"].
Proof.
  apply (onOptionRemove_deletes 1 ["red"; "green"; "blue"] Examples.radioField).
  simpl. lia.
Defined.

(** Enter in an option input of the radio field, then removing the new
    option. *)
Lemma addOption_then_remove_witness :
  SortableItem.onOptionRemove 3 ["red"; "green"; "blue"; EmptyString]
    (SortableItem.addOption Examples.radioField)
  = Examples.radioField.
Proof.
  apply (addOption_then_remove "Enter" Examples.radioField
           ["red"; "green"; "blue"]).
  reflexivity.
Defined.
